(** * TerrainLab: blank .mul container writers and the map block reader

    A shallow embedding of the Python scripts of the repository
    (AxonometricLabv0.py, Map2TXT.py, emptyX.py, blankTileReg.py,
    blank_art_bin.py) and the properties of their binary layouts.

    Python integers are unbounded, so they are modelled by [Z]; [//] and [%]
    with a positive right operand are [Z.div] and [Z.modulo].  A [bytes]
    value is a [list byte].  Exceptions are values of [exn]; code that
    touches a file object or the file system lives in a state monad whose
    state survives a raised exception, as the effects of a Python script
    survive the exception that ends it. *)

From Stdlib Require Import ZArith Lia List.
From Stdlib Require Import Strings.Byte.
From Stdlib Require Import Floats.SpecFloat.
From stdpp Require Import gmap strings list pretty.

Local Open Scope Z_scope.

(** ** Exceptions and results *)

Inductive exn : Type :=
| SystemExit (msg : string)
| ValueError (msg : string)
| FileExistsError (msg : string)
| RuntimeError (msg : string)
| OverflowError (msg : string)
| OSError (msg : string)
| StructError (msg : string).

Inductive result (A : Type) : Type :=
| Ok (a : A)
| Raise (e : exn).
Arguments Ok {A} a.
Arguments Raise {A} e.

(** A computation over a mutable state [S]: the state reached when an
    exception is raised is kept. *)
Definition M (S A : Type) : Type := S -> result A * S.

Definition ret {S A} (a : A) : M S A := fun s => (Ok a, s).
Definition raise {S A} (e : exn) : M S A := fun s => (Raise e, s).
Definition bind {S A B} (m : M S A) (k : A -> M S B) : M S B :=
  fun s => match m s with
           | (Ok a, s') => k a s'
           | (Raise e, s') => (Raise e, s')
           end.
Definition lift {S A} (r : result A) : M S A := fun s => (r, s).

Declare Scope py_scope.
Delimit Scope py_scope with py.
Notation "x <- m ;; k" := (bind m (fun x => k))
  (at level 100, m at next level, k at level 200, right associativity) : py_scope.
Notation "m ;; k" := (bind m (fun _ => k))
  (at level 100, k at level 200, right associativity) : py_scope.
Local Open Scope py_scope.

(** [for x in xs: body], with the locals the body updates carried in [acc]. *)
Fixpoint for_in {S A B} (xs : list A) (body : A -> B -> M S B) (acc : B) : M S B :=
  match xs with
  | [] => ret acc
  | x :: xs' => acc' <- body x acc ;; for_in xs' body acc'
  end.

(** [range(n)]: empty when [n <= 0]. *)
Definition py_range (n : Z) : list Z := map Z.of_nat (seq 0 (Z.to_nat n)).

(** [for _ in range(n): body] for a body that has no locals to carry. *)
Definition for_range {S} (n : Z) (body : M S unit) : M S unit :=
  for_in (py_range n) (fun _ _ => body) tt.

(** ** Bytes *)

Abbreviation bytes := (list byte).

Definition byte_of_Z (z : Z) : byte :=
  match Byte.of_N (Z.to_N z) with
  | Some b => b
  | None => x00
  end.

Definition Z_of_byte (b : byte) : Z := Z.of_N (Byte.to_N b).

(** [len(b)] *)
Definition len {A} (l : list A) : Z := Z.of_nat (length l).

(** [b * n] on bytes: [n] copies, none when [n <= 0]. *)
Definition bytes_mul (b : bytes) (n : Z) : bytes := concat (replicate (Z.to_nat n) b).

(** ** The [struct] module, little-endian standard sizes *)

Module struct.

Inductive code : Type := c_B | c_b | c_H | c_I | c_i.

Definition size (c : code) : nat :=
  match c with
  | c_B | c_b => 1
  | c_H => 2
  | c_I | c_i => 4
  end%nat.

Definition signed (c : code) : bool :=
  match c with
  | c_b | c_i => true
  | c_B | c_H | c_I => false
  end.

Definition bits (c : code) : Z := 8 * Z.of_nat (size c).

Definition lo (c : code) : Z := if signed c then - 2 ^ (bits c - 1) else 0.
Definition hi (c : code) : Z := if signed c then 2 ^ (bits c - 1) - 1 else 2 ^ bits c - 1.

Fixpoint le_encode (n : nat) (v : Z) : bytes :=
  match n with
  | O => []
  | S n' => byte_of_Z (v mod 256) :: le_encode n' (v / 256)
  end.

Fixpoint le_decode (bs : bytes) : Z :=
  match bs with
  | [] => 0
  | b :: bs' => Z_of_byte b + 256 * le_decode bs'
  end.

(** One field: [struct.error] when the value does not fit the code. *)
Definition pack1 (c : code) (v : Z) : result bytes :=
  if (lo c <=? v) && (v <=? hi c)
  then Ok (le_encode (size c) (v mod 2 ^ bits c))
  else Raise (StructError "argument out of range").

Definition unpack1 (c : code) (bs : bytes) : Z :=
  let u := le_decode bs in
  if signed c && (2 ^ (bits c - 1) <=? u) then u - 2 ^ bits c else u.

Definition calcsize (fmt : list code) : nat := sum_list (map size fmt).

(** [struct.pack("<...", v1, ..., vn)] *)
Fixpoint pack (fmt : list code) (vs : list Z) : result bytes :=
  match fmt, vs with
  | [], [] => Ok []
  | c :: fmt', v :: vs' =>
      match pack1 c v with
      | Ok b => match pack fmt' vs' with
                | Ok bs => Ok (b ++ bs)
                | Raise e => Raise e
                end
      | Raise e => Raise e
      end
  | _, _ => Raise (StructError "pack expected a different number of items")
  end.

Fixpoint unpack_fields (fmt : list code) (bs : bytes) : list Z :=
  match fmt with
  | [] => []
  | c :: fmt' => unpack1 c (take (size c) bs) :: unpack_fields fmt' (drop (size c) bs)
  end.

(** [struct.unpack("<...", data)]: the buffer must have exactly the
    size of the format. *)
Definition unpack (fmt : list code) (bs : bytes) : result (list Z) :=
  if (length bs =? calcsize fmt)%nat
  then Ok (unpack_fields fmt bs)
  else Raise (StructError "unpack requires a buffer of the size of the format").

End struct.

(** ** [math.sqrt] and [int()] on binary64 floats *)

Module math.

Definition prec : Z := 53.
Definition emax : Z := 1024.

(** [float(n)] for an int: round to nearest even; OverflowError when
    the result would not be finite. *)
Definition float_of_int (n : Z) : result spec_float :=
  match binary_normalize prec emax n 0 false with
  | S754_infinity _ => Raise (OverflowError "int too large to convert to float")
  | x => Ok x
  end.

(** [int(x)] for a float: truncation towards zero. *)
Definition int_of_float (x : spec_float) : result Z :=
  match x with
  | S754_zero _ => Ok 0
  | S754_finite s m e =>
      let a := Z.shiftl (Z.pos m) e in
      Ok (if s then - a else a)
  | S754_infinity _ => Raise (OverflowError "cannot convert float infinity to integer")
  | S754_nan => Raise (ValueError "cannot convert float NaN to integer")
  end.

(** [math.sqrt(n)] for an int argument. *)
Definition sqrt (n : Z) : result spec_float :=
  match float_of_int n with
  | Raise e => Raise e
  | Ok x =>
      match x with
      | S754_finite true _ _ => Raise (ValueError "math domain error")
      | _ => Ok (SFsqrt prec emax x)
      end
  end.

End math.

(** ** Files *)

(** A file object opened for reading: its content and the position of
    the next read. *)
Record rfile : Type := { rdata : bytes; rpos : nat }.

(** The offsets a C [off_t] holds: 64 bits, signed. *)
Definition OFF_T_MIN : Z := - 2 ^ 63.
Definition OFF_T_MAX : Z := 2 ^ 63 - 1.

(** Whether [f.seek] can hand [off] to the operating system.  A file
    holds at most [OFF_T_MAX] bytes, so every offset inside a file fits; the
    content of a model file is a list of any length, and all of it can be
    reached. *)
Definition fits_off_t (f : rfile) (off : Z) : bool :=
  (OFF_T_MIN <=? off) && ((off <=? OFF_T_MAX) || (off <=? len (rdata f))).

(** [f.seek(off)] on a file opened with "rb".  The offset is converted to
    an [off_t] first, with ValueError when it does not fit; [lseek] then
    refuses a negative offset (EINVAL).  An offset inside the file is always
    accepted.  Past the end of the file the file system decides: it may
    refuse an offset beyond the largest file it supports, again with EINVAL.
    The model accepts every such offset up to [OFF_T_MAX], as tmpfs, XFS and
    btrfs do; the theorems about [read_block] state its result only at
    offsets inside the file, or where [seek] fails on every file system. *)
Definition seek (off : Z) : M rfile Z :=
  fun f =>
    if negb (fits_off_t f off) then
      (Raise (ValueError "cannot fit 'int' into an offset-sized integer"), f)
    else if off <? 0 then (Raise (OSError "Invalid argument"), f)
    else (Ok off, {| rdata := rdata f; rpos := Z.to_nat off |}).

(** [f.read(n)]: at most [n] bytes, fewer at the end of the file. *)
Definition read (n : nat) : M rfile bytes :=
  fun f =>
    let chunk := take n (drop (rpos f) (rdata f)) in
    (Ok chunk, {| rdata := rdata f; rpos := (rpos f + length chunk)%nat |}).

(** A file object opened with "wb": what has been written so far. *)
Definition write (b : bytes) : M bytes unit := fun f => (Ok tt, f ++ b).

(** The file system: the content of every file that exists, by path. *)
Abbreviation fs := (gmap string bytes).

(** [dir / name] *)
Definition path_join (dir name : string) : string := dir +:+ "/" +:+ name.

(** ** Text output *)

(** Exception classes the scripts meet that [exn] has no constructor of
    their own for; nothing in the scripts catches an exception, so a class
    only serves to tell failures apart.  [FileNotFoundError] is an [OSError]
    in Python; [IndexError] is kept apart by its message. *)
Definition FileNotFoundError (path : string) : exn :=
  OSError ("[Errno 2] No such file or directory: " +:+ path).
Definition IndexError (msg : string) : exn :=
  RuntimeError ("IndexError: " +:+ msg).

(** The characters LF (code 10) and the digit zero (code 48). *)
Definition char_lf : Ascii.ascii :=
  Ascii.Ascii false true false true false false false false.
Definition char_0 : Ascii.ascii :=
  Ascii.Ascii false false false false true true false false.

Definition newline : string := String char_lf EmptyString.

(** The digits of [s] padded with zeros on the left to [w] characters. *)
Definition zero_pad (w : nat) (s : string) : string :=
  String.string_of_list_ascii (replicate (w - String.length s) char_0) +:+ s.

(** The format specs [04d] and [+d] on an int. *)
Definition format_04d (n : Z) : string :=
  if n <? 0 then "-" +:+ zero_pad 3 (pretty (- n)) else zero_pad 4 (pretty n).
Definition format_plus_d (n : Z) : string :=
  if n <? 0 then pretty n else "+" +:+ pretty n.

(** A binary file open for reading next to a text file open with "w":
    the state of the [with] block of Map2TXT's [main]. *)
Definition on_file {A} (m : M rfile A) : M (rfile * string) A :=
  fun st => let '(r, f') := m (fst st) in (r, (f', snd st)).

(** [out_fp.write(txt)] *)
Definition out_write (txt : string) : M (rfile * string) unit :=
  fun st => (Ok tt, (fst st, snd st +:+ txt)).

(** ** Map2TXT.py *)

Module Map2TXT.

Definition BLOCK_SIZE_BYTES : Z := 4 + 64 * 3.
Definition CELL_STRUCT : list struct.code := [struct.c_H; struct.c_b].

(** A dict iterates in insertion order; the keys are pairwise distinct. *)
Definition KNOWN_BLOCK_DIMS : list ((Z * Z) * string) :=
  [ ((768, 512), "Classic rectangular (map0/map1 style)");
    ((896, 512), "Large rectangular (variant)");
    ((288, 200), "Medium rectangular (map2-like)");
    ((256, 256), "Square (map3-like)");
    ((181, 181), "Small square (map4-like)");
    ((512, 512), "Square test/dev") ]%string.

Definition misaligned_msg (file_size : Z) : string :=
  "File size " +:+ pretty file_size +:+ " is not a multiple of block size "
    +:+ pretty BLOCK_SIZE_BYTES +:+ "; "
    +:+ "this does not look like a valid map#.mul.".

(** The [for ... in KNOWN_BLOCK_DIMS.items()] loop: return at the
    first entry whose product is [total_blocks]. *)
Fixpoint lookup_dims (items : list ((Z * Z) * string)) (total_blocks : Z)
  : option (Z * Z * string * Z) :=
  match items with
  | [] => None
  | ((ax, ay), label) :: items' =>
      if ax * ay =? total_blocks then Some (ax, ay, label, total_blocks)
      else lookup_dims items' total_blocks
  end.

Definition autodetect_block_dims (file_size : Z) : result (Z * Z * string * Z) :=
  if negb (file_size mod BLOCK_SIZE_BYTES =? 0) then
    Raise (SystemExit (misaligned_msg file_size))
  else
    let total_blocks := file_size / BLOCK_SIZE_BYTES in
    match lookup_dims KNOWN_BLOCK_DIMS total_blocks with
    | Some r => Ok r
    | None =>
        (* fallback heuristic *)
        match math.sqrt total_blocks with
        | Raise e => Raise e
        | Ok x =>
            match math.int_of_float x with
            | Raise e => Raise e
            | Ok r => Ok (r, r, "Heuristic"%string, total_blocks)
            end
        end
    end.

Definition block_offset (bx by_ blocks_down : Z) : Z :=
  ((bx * blocks_down) + by_) * BLOCK_SIZE_BYTES.

Definition read_block (bx by_ blocks_down : Z)
  : M rfile (bytes * list (list (Z * Z))) :=
  seek (block_offset bx by_ blocks_down) ;;
  header <- read 4 ;;
  if negb (len header =? 4) then raise (SystemExit "Unexpected EOF in block header.")
  else
    cells <- for_in (py_range 8) (fun y cells =>
      row <- for_in (py_range 8) (fun x row =>
        data <- read (struct.calcsize CELL_STRUCT) ;;
        if negb (length data =? struct.calcsize CELL_STRUCT)%nat then
          raise (SystemExit "Unexpected EOF in block data.")
        else
          fields <- lift (struct.unpack CELL_STRUCT data) ;;
          match fields with
          | [tile; alt] => ret (row ++ [(tile, alt)])
          | _ => raise (ValueError "not enough values to unpack")
          end) [] ;;
      ret (cells ++ [row])) [] ;;
    ret (header, cells).

Definition dump_block_pretty (cells : list (list (Z * Z))) (bx by_ : Z) : result string :=
  let lines :=
    ["# Block (" +:+ pretty bx +:+ "," +:+ pretty by_
       +:+ ") — 8x8 cells, format tile:alt"] in
  match
    for_in (py_range 8) (fun y lines =>
      match cells !! Z.to_nat y with
      | None => raise (IndexError "list index out of range")
      | Some row =>
          ret (lines ++ [String.concat " "
                           (map (fun c => format_04d (fst c) +:+ ":" +:+ format_plus_d (snd c))
                                row)])
      end) lines tt
  with
  | (Ok lines, _) => Ok (String.concat newline lines +:+ newline +:+ newline)
  | (Raise e, _) => Raise e
  end.

(** The body of the [with] block of [main]. *)
Definition dump_blocks (all_blocks : bool) (blocks_across blocks_down : Z)
  : M (rfile * string) unit :=
  if all_blocks then
    for_in (py_range blocks_across) (fun bx _ =>
      for_in (py_range blocks_down) (fun by_ _ =>
        hc <- on_file (read_block bx by_ blocks_down) ;;
        txt <- lift (dump_block_pretty (snd hc) bx by_) ;;
        out_write txt) tt) tt
  else
    (* default: just block (0,0) *)
    hc <- on_file (read_block 0 0 blocks_down) ;;
    txt <- lift (dump_block_pretty (snd hc) 0 0) ;;
    out_write txt.

(** [main], from the parsed arguments: [input], [out_path] (the value of
    [args.output or ...with_name(...)]) and [all_blocks].  The summary it
    prints is not modelled.  The output is opened with "w" after the input
    with "rb"; when both are the same file the reader sees it truncated. *)
Definition main (input out_path : string) (all_blocks : bool) : M fs unit :=
  fun s =>
    match s !! input with
    | None => (Raise (FileNotFoundError input), s)
    | Some data =>
        let file_size := len data in
        match autodetect_block_dims file_size with
        | Raise e => (Raise e, s)
        | Ok (blocks_across, blocks_down, label, total_blocks) =>
            let visible := if decide (out_path = input) then [] else data in
            let '(r, st) :=
              dump_blocks all_blocks blocks_across blocks_down
                ({| rdata := visible; rpos := 0 |}, EmptyString) in
            (r, <[out_path := String.list_byte_of_string (snd st)]> s)
        end
    end.

End Map2TXT.

(** [with open(path, "wb") as f: writer_fn(f)]: the file is created or
    truncated, and holds whatever [writer_fn] wrote, also when it raised. *)
Definition open_wb (path : string) (writer_fn : M bytes unit) : M fs unit :=
  fun s => let '(r, data) := writer_fn [] in (r, <[path := data]> s).

(** [f.write(struct.pack(fmt, v1, ..., vn))] *)
Definition write_packed (fmt : list struct.code) (vs : list Z) : M bytes unit :=
  b <- lift (struct.pack fmt vs) ;; write b.

(** ** AxonometricLabv0.py *)

Module AxonometricLab.
Import struct.

(** File helpers.  [path.parent.mkdir] only creates directories, which
    the file system model does not track. *)

Definition exists_msg (path : string) : string :=
  path +:+ " exists. Use --force to overwrite.".

Definition write_file (path : string) (data : bytes) (force : bool) : M fs unit :=
  fun s =>
    if bool_decide (is_Some (s !! path)) && negb force then
      (Raise (FileExistsError (exists_msg path)), s)
    else (Ok tt, <[path := data]> s).

Definition write_streamed (path : string) (writer_fn : M bytes unit) (force : bool)
  : M fs unit :=
  fun s =>
    if bool_decide (is_Some (s !! path)) && negb force then
      (Raise (FileExistsError (exists_msg path)), s)
    else open_wb path writer_fn s.

Definition require_multiple_of_8 (value : Z) (name : string) : result unit :=
  if value <=? 0 then
    Raise (ValueError (name +:+ " must be > 0."))
  else if negb (value mod 8 =? 0) then
    Raise (ValueError (name +:+ " must be a multiple of 8. Got " +:+ pretty value +:+ "."))
  else Ok tt.

(** art.mul / artidx.mul *)

Definition make_art_mul (out_dir : string) (force : bool) : M fs unit :=
  write_file (path_join out_dir "art.mul") [] force.

Definition make_artidx_mul (out_dir : string) (force : bool) (idx_entries : option Z)
  : M fs unit :=
  let idx_entries := default 0x14000 idx_entries in
  let NO_ART := 0xFFFFFFFF in
  record <- lift (pack [c_I; c_I; c_I] [NO_ART; 0; 0]) ;;
  write_file (path_join out_dir "artidx.mul") (bytes_mul record idx_entries) force.

(** tiledata.mul (classic groups) *)

Definition LAND_GROUPS : Z := 512.
Definition STATIC_GROUPS : Z := 2048.
Definition NAME20_ZERO : bytes := bytes_mul [x00] 20.

Definition tiledata_writer : M bytes unit :=
  (* Land *)
  for_range LAND_GROUPS (
    write_packed [c_I] [0] ;;        (* group header *)
    for_range 32 (
      write_packed [c_I] [0] ;;      (* flags *)
      write_packed [c_H] [0] ;;      (* texture id *)
      write NAME20_ZERO)) ;;         (* name[20] *)
  (* Statics *)
  for_range STATIC_GROUPS (
    write_packed [c_I] [0] ;;        (* group header *)
    for_range 32 (
      write_packed [c_I] [0] ;;      (* flags *)
      write_packed [c_B] [0] ;;      (* weight *)
      write_packed [c_B] [0] ;;      (* quality *)
      write_packed [c_H] [0] ;;      (* unknown *)
      write_packed [c_B] [0] ;;      (* unknown1 *)
      write_packed [c_B] [0] ;;      (* quantity *)
      write_packed [c_H] [0] ;;      (* animid *)
      write_packed [c_B] [0] ;;      (* unknown2 *)
      write_packed [c_B] [0] ;;      (* hue *)
      write_packed [c_H] [0] ;;      (* unknown3 *)
      write_packed [c_b] [0] ;;      (* height (signed) *)
      write NAME20_ZERO)).           (* name[20] *)

Definition make_tiledata_mul (out_dir : string) (force : bool) : M fs unit :=
  write_streamed (path_join out_dir "tiledata.mul") tiledata_writer force.

(** hues.mul *)

Definition hues_writer (hue_groups : Z) : M bytes unit :=
  h1 <- lift (pack [c_H] [0]) ;;     (* tableStart *)
  h2 <- lift (pack [c_H] [0]) ;;     (* tableEnd *)
  let hue_entry := bytes_mul [x00] (32 * 2) ++ h1 ++ h2 ++ bytes_mul [x00] 20 in
  if negb (len hue_entry =? 88) then
    raise (RuntimeError "Internal error: hue_entry size is not 88 bytes.")
  else
    for_range hue_groups (
      write_packed [c_I] [0] ;;      (* group header *)
      for_range 8 (write hue_entry)).

Definition make_hues_mul (out_dir : string) (force : bool) (hue_groups : option Z)
  : M fs unit :=
  let hue_groups := default 375 hue_groups in
  write_streamed (path_join out_dir "hues.mul") (hues_writer hue_groups) force.

(** radarcol.mul *)

Definition make_radarcol_mul (out_dir : string) (force : bool) (entries : option Z)
  : M fs unit :=
  let entries := default 0x10000 entries in
  write_file (path_join out_dir "radarcol.mul") (bytes_mul [x00; x00] entries) force.

(** map{facet}.mul / staidx{facet}.mul / statics{facet}.mul *)

Definition make_map_and_statics (out_dir : string) (force : bool)
    (facet width height default_land default_z : Z) : M fs unit :=
  lift (require_multiple_of_8 width "map-width") ;;
  lift (require_multiple_of_8 height "map-height") ;;
  if (facet <? 0) || (facet >? 255) then
    raise (ValueError "facet must be between 0 and 255.")
  else if (default_land <? 0) || (default_land >? 0x3FFF) then
    raise (ValueError "default-land must be between 0 and 16383 (0x3FFF).")
  else if (default_z <? -128) || (default_z >? 127) then
    raise (ValueError "default-z must be between -128 and 127.")
  else
    let map_path := path_join out_dir ("map" +:+ pretty facet +:+ ".mul") in
    let staidx_path := path_join out_dir ("staidx" +:+ pretty facet +:+ ".mul") in
    let statics_path := path_join out_dir ("statics" +:+ pretty facet +:+ ".mul") in

    let blocks_x := width / 8 in
    let blocks_y := height / 8 in
    let block_count := blocks_x * blocks_y in

    tile_bytes <- lift (pack [c_H; c_b] [default_land; default_z]) ;;  (* 3 bytes *)
    block_header <- lift (pack [c_i] [0]) ;;
    let one_block := block_header ++ bytes_mul tile_bytes 64 in

    if negb (len one_block =? 196) then
      raise (RuntimeError "Internal error: map block is not 196 bytes.")
    else
      let write_map := for_range block_count (write one_block) in

      empty_staidx <- lift (pack [c_i; c_i; c_i] [-1; 0; 0]) ;;
      let write_staidx := write (bytes_mul empty_staidx block_count) in

      (* Statics container empty *)
      write_streamed map_path write_map force ;;
      write_streamed staidx_path write_staidx force ;;
      write_file statics_path [] force.

(** Main.  The parsed command line, with argparse's defaults. *)

Record args : Type := {
  arg_out : string;
  arg_force : bool;
  arg_facet : Z;
  arg_map_width : Z;
  arg_map_height : Z;
  arg_default_land : Z;
  arg_default_z : Z;
  arg_artidx_entries : Z;
  arg_hue_groups : Z
}.

Definition default_args : args := {|
  arg_out := "ClientMin";
  arg_force := false;
  arg_facet := 0;
  arg_map_width := 256;
  arg_map_height := 256;
  arg_default_land := 0;
  arg_default_z := 0;
  arg_artidx_entries := 0x14000;
  arg_hue_groups := 375
|}.

(** The summary that [main] prints after the writers is not modelled. *)
Definition main (a : args) : M fs Z :=
  let out_dir := arg_out a in
  make_art_mul out_dir (arg_force a) ;;
  make_artidx_mul out_dir (arg_force a) (Some (arg_artidx_entries a)) ;;
  make_tiledata_mul out_dir (arg_force a) ;;
  make_hues_mul out_dir (arg_force a) (Some (arg_hue_groups a)) ;;
  make_radarcol_mul out_dir (arg_force a) None ;;
  make_map_and_statics out_dir (arg_force a) (arg_facet a)
    (arg_map_width a) (arg_map_height a) (arg_default_land a) (arg_default_z a) ;;
  ret 0.

End AxonometricLab.

(** ** emptyX.py *)

Module emptyX.
Import struct.

(** [main] after its two prompts: [prompt_int] only returns integers
    [> 0], here the parameters [blocks_x] and [blocks_y]. *)
Definition main (blocks_x blocks_y : Z) : M fs unit :=
  let entries := blocks_x * blocks_y in
  let staidx_path := "staidx0.mul"%string in
  let statics_path := "statics0.mul"%string in
  open_wb staidx_path (
    empty_entry <- lift (pack [c_i; c_i; c_i] [-1; 0; 0]) ;;
    write (bytes_mul empty_entry entries)) ;;
  (* Ensure an empty statics0.mul exists *)
  open_wb statics_path (ret tt).

End emptyX.

(** ** blankTileReg.py *)

Module blankTileReg.
Import struct.

Definition LAND_GROUPS : Z := 512.
Definition LAND_ENTRY_SIZE : Z := 26.
Definition STATIC_GROUPS : Z := 2048.
Definition STATIC_ENTRY_SIZE : Z := 37.
Definition NAME20_ZERO : bytes := bytes_mul [x00] 20.

Definition write_land_group : M bytes unit :=
  write_packed [c_I] [0] ;;          (* Group header DWORD (unused) *)
  for_range 32 (
    write_packed [c_I] [0] ;;        (* Flags *)
    write_packed [c_H] [0] ;;        (* TextureID *)
    write NAME20_ZERO).              (* Name[20] *)

Definition write_static_group : M bytes unit :=
  write_packed [c_I] [0] ;;          (* Group header *)
  for_range 32 (
    write_packed [c_I] [0] ;;        (* Flags *)
    write_packed [c_B] [0] ;;        (* Weight *)
    write_packed [c_B] [0] ;;        (* Quality *)
    write_packed [c_H] [0] ;;        (* Unknown *)
    write_packed [c_B] [0] ;;        (* Unknown1 *)
    write_packed [c_B] [0] ;;        (* Quantity *)
    write_packed [c_H] [0] ;;        (* AnimID *)
    write_packed [c_B] [0] ;;        (* Unknown2 *)
    write_packed [c_B] [0] ;;        (* Hue *)
    write_packed [c_H] [0] ;;        (* Unknown3 *)
    write_packed [c_b] [0] ;;        (* Height (signed) *)
    write NAME20_ZERO).              (* Name[20] *)

(** The script body; the byte counts it prints are [land_bytes],
    [static_bytes] and [total]. *)
Definition main : M fs unit :=
  open_wb "tiledata.mul" (
    for_range LAND_GROUPS write_land_group ;;
    for_range STATIC_GROUPS write_static_group).

Definition land_bytes : Z := LAND_GROUPS * (4 + 32 * LAND_ENTRY_SIZE).
Definition static_bytes : Z := STATIC_GROUPS * (4 + 32 * STATIC_ENTRY_SIZE).
Definition total : Z := land_bytes + static_bytes.

End blankTileReg.

(** ** blank_art_bin.py *)

Module blank_art_bin.
Import struct.

Definition make_art_stubs (art_path artidx_path : option string) (idx_entries : option Z)
  : M fs unit :=
  let art_path := default "art.mul"%string art_path in
  let artidx_path := default "artidx.mul"%string artidx_path in
  let idx_entries := default 0x10000 idx_entries in
  (* Create an empty art.mul container *)
  open_wb art_path (ret tt) ;;
  let NO_ART := 0xFFFFFFFF in
  open_wb artidx_path (
    for_range idx_entries (write_packed [c_I; c_I; c_I] [NO_ART; 0; 0])).

End blank_art_bin.

(** ** The conditions and layouts the properties are stated with *)

(** The failure conditions, as the exceptions the scripts raise for them. *)
Definition MisalignedFileSize (e : exn) : Prop :=
  exists file_size, e = SystemExit (Map2TXT.misaligned_msg file_size).


Definition InvalidDimension (e : exn) : Prop :=
  exists (name : string) (value : Z),
    e = ValueError (name +:+ " must be > 0.")
    \/ e = ValueError (name +:+ " must be a multiple of 8. Got " +:+ pretty value +:+ ".").

Definition InvalidFacet (e : exn) : Prop :=
  e = ValueError "facet must be between 0 and 255.".

Definition InvalidTileId (e : exn) : Prop :=
  e = ValueError "default-land must be between 0 and 16383 (0x3FFF).".

Definition InvalidAltitude (e : exn) : Prop :=
  e = ValueError "default-z must be between -128 and 127.".

Definition DestinationExists (e : exn) : Prop :=
  exists path, e = FileExistsError (AxonometricLab.exists_msg path).

(** [n] zero bytes. *)
Definition zeros (n : Z) : bytes := bytes_mul [x00] n.

(** The 12-byte index record (0xFFFFFFFF, 0, 0); as three signed fields
    it reads (-1, 0, 0). *)
Definition sentinel_record : bytes :=
  [xff; xff; xff; xff; x00; x00; x00; x00; x00; x00; x00; x00].

(** A map cell on disk: uint16 tile id, little-endian, then int8 altitude. *)
Definition cell_bytes (tile alt : Z) : bytes :=
  [byte_of_Z (tile mod 256); byte_of_Z (tile / 256 mod 256); byte_of_Z (alt mod 256)].

Definition decode_cell (data : bytes) : Z * Z :=
  (struct.unpack1 struct.c_H (take 2 data),
   struct.unpack1 struct.c_b (take 1 (drop 2 data))).

(** A uniform map block: zero header and 64 copies of one cell. *)
Definition uniform_block (tile alt : Z) : bytes :=
  zeros 4 ++ bytes_mul (cell_bytes tile alt) 64.

(** The [k]-th record of [size] bytes in [data]. *)
Definition record_at (size : nat) (data : bytes) (k : nat) : bytes :=
  take size (drop (size * k) data).

(** What is left to read in a file object. *)
Definition remaining (f : rfile) : bytes := drop (rpos f) (rdata f).

(** The first [n] 3-byte cells of [rem], decoded. *)
Fixpoint decode_cells (n : nat) (rem : bytes) : list (Z * Z) :=
  match n with
  | O => []
  | S n' => decode_cell (take 3 rem) :: decode_cells n' (drop 3 rem)
  end.

(** The first [n] rows of 8 cells of [rem], decoded. *)
Fixpoint decode_rows (n : nat) (rem : bytes) : list (list (Z * Z)) :=
  match n with
  | O => []
  | S n' => decode_cells 8 rem :: decode_rows n' (drop 24 rem)
  end.


(** The file object after [f.read(n)]. *)
Definition advance (n : nat) (f : rfile) : rfile :=
  {| rdata := rdata f; rpos := (rpos f + length (take n (remaining f)))%nat |}.

(** The bodies of the two loops of [read_block]. *)
Definition read_cell (x : Z) (row : list (Z * Z)) : M rfile (list (Z * Z)) :=
  data <- read (struct.calcsize Map2TXT.CELL_STRUCT) ;;
  if negb (length data =? struct.calcsize Map2TXT.CELL_STRUCT)%nat then
    raise (SystemExit "Unexpected EOF in block data.")
  else
    fields <- lift (struct.unpack Map2TXT.CELL_STRUCT data) ;;
    match fields with
    | [tile; alt] => ret (row ++ [(tile, alt)])
    | _ => raise (ValueError "not enough values to unpack")
    end.

Definition read_row (y : Z) (cells : list (list (Z * Z))) : M rfile (list (list (Z * Z))) :=
  row <- for_in (py_range 8) read_cell [] ;;
  ret (cells ++ [row]).

(** The paths of the three per-facet files. *)
Definition map_path (out_dir : string) (facet : Z) : string :=
  path_join out_dir ("map" +:+ pretty facet +:+ ".mul").
Definition staidx_path (out_dir : string) (facet : Z) : string :=
  path_join out_dir ("staidx" +:+ pretty facet +:+ ".mul").
Definition statics_path (out_dir : string) (facet : Z) : string :=
  path_join out_dir ("statics" +:+ pretty facet +:+ ".mul").

(** The parameters [make_map_and_statics] accepts. *)
Definition valid_dimension (v : Z) : Prop := 0 < v /\ v mod 8 = 0.
Definition valid_facet (facet : Z) : Prop := 0 <= facet <= 255.
Definition valid_tile (tile : Z) : Prop := 0 <= tile <= 0x3FFF.
Definition valid_altitude (alt : Z) : Prop := -128 <= alt <= 127.

(** The tiledata groups: a 4-byte header and 32 entries of 26 (land) or
    37 (static) bytes, all zero. *)
Definition land_group : bytes := zeros 4 ++ bytes_mul (zeros 26) 32.
Definition static_group : bytes := zeros 4 ++ bytes_mul (zeros 37) 32.
Definition tiledata_body : bytes :=
  bytes_mul land_group 512 ++ bytes_mul static_group 2048.

(** A hue group: a 4-byte header and 8 entries of 88 bytes, all zero. *)
Definition hue_group : bytes := zeros 4 ++ bytes_mul (zeros 88) 8.

(** The outcome of a guarded write of [data] to [path]. *)
Definition guarded_write (path : string) (data : bytes) (force : bool) (s : fs)
  : result unit * fs :=
  if bool_decide (is_Some (s !! path)) && negb force
  then (Raise (FileExistsError (AxonometricLab.exists_msg path)), s)
  else (Ok tt, <[path := data]> s).

(** The file system after the five writers that [main] runs before
    [make_map_and_statics], when each of them was allowed to write. *)
Definition after_fixed_artifacts (a : AxonometricLab.args) (s : fs) : fs :=
  let out_dir := AxonometricLab.arg_out a in
  <[path_join out_dir "radarcol.mul" := bytes_mul [x00; x00] 0x10000]>
    (<[path_join out_dir "hues.mul" := bytes_mul hue_group (AxonometricLab.arg_hue_groups a)]>
       (<[path_join out_dir "tiledata.mul" := tiledata_body]>
          (<[path_join out_dir "artidx.mul"
             := bytes_mul sentinel_record (AxonometricLab.arg_artidx_entries a)]>
             (<[path_join out_dir "art.mul" := []]> s)))).

(** The command line [--map-width 7], everything else left to its default. *)
Definition args_width_7 : AxonometricLab.args :=
  {| AxonometricLab.arg_out := "ClientMin";
     AxonometricLab.arg_force := false;
     AxonometricLab.arg_facet := 0;
     AxonometricLab.arg_map_width := 7;
     AxonometricLab.arg_map_height := 256;
     AxonometricLab.arg_default_land := 0;
     AxonometricLab.arg_default_z := 0;
     AxonometricLab.arg_artidx_entries := 0x14000;
     AxonometricLab.arg_hue_groups := 375 |}.

(** Writing a list of files in order, later entries over earlier ones. *)
Fixpoint write_all (files : list (string * bytes)) (s : fs) : fs :=
  match files with
  | [] => s
  | (path, data) :: files' => write_all files' (<[path := data]> s)
  end.

(** What [write_all files] leaves at [path], if it writes there. *)
Fixpoint last_write (files : list (string * bytes)) (path : string) : option bytes :=
  match files with
  | [] => None
  | (q, data) :: files' =>
      match last_write files' path with
      | Some d => Some d
      | None => if decide (q = path) then Some data else None
      end
  end.

(** The eight files of a run of AxonometricLab's [main], in the order
    they are written, with the content each one gets. *)
Definition main_artifacts (a : AxonometricLab.args) : list (string * bytes) :=
  let out_dir := AxonometricLab.arg_out a in
  let facet := AxonometricLab.arg_facet a in
  let blocks := AxonometricLab.arg_map_width a / 8 * (AxonometricLab.arg_map_height a / 8) in
  [ (path_join out_dir "art.mul", []);
    (path_join out_dir "artidx.mul",
       bytes_mul sentinel_record (AxonometricLab.arg_artidx_entries a));
    (path_join out_dir "tiledata.mul", tiledata_body);
    (path_join out_dir "hues.mul", bytes_mul hue_group (AxonometricLab.arg_hue_groups a));
    (path_join out_dir "radarcol.mul", bytes_mul [x00; x00] 0x10000);
    (map_path out_dir facet,
       bytes_mul (uniform_block (AxonometricLab.arg_default_land a)
                    (AxonometricLab.arg_default_z a)) blocks);
    (staidx_path out_dir facet, bytes_mul sentinel_record blocks);
    (statics_path out_dir facet, []) ].

Definition valid_args (a : AxonometricLab.args) : Prop :=
  valid_dimension (AxonometricLab.arg_map_width a)
  /\ valid_dimension (AxonometricLab.arg_map_height a)
  /\ valid_facet (AxonometricLab.arg_facet a)
  /\ valid_tile (AxonometricLab.arg_default_land a)
  /\ valid_altitude (AxonometricLab.arg_default_z a).

(** A step that changes no file outside [paths], whatever its outcome. *)
Definition only_touches {A} (paths : list string) (m : M fs A) : Prop :=
  forall s r s', m s = (r, s') -> forall p, p ∉ paths -> s' !! p = s !! p.

(** A step that leaves every file that exists as it is, whatever its
    outcome. *)
Definition keeps_existing {A} (m : M fs A) : Prop :=
  forall s r s', m s = (r, s') -> forall p d, s !! p = Some d -> s' !! p = Some d.

(** The decoded cells of the block stored at index [k] of a map file. *)
Definition block_at (data : bytes) (k : Z) : list (list (Z * Z)) :=
  decode_rows 8 (drop 4 (drop (Z.to_nat (k * 196)) data)).

(** The text [dump_block_pretty] returns, empty when it raises. *)
Definition dump_text (cells : list (list (Z * Z))) (bx by_ : Z) : string :=
  match Map2TXT.dump_block_pretty cells bx by_ with
  | Ok txt => txt
  | Raise _ => EmptyString
  end.

(** The text of a full sweep over [blocks_across] x [blocks_down] blocks
    of [data]: [bx] outer, [by] inner. *)
Definition sweep_text (data : bytes) (blocks_across blocks_down : Z) : string :=
  String.concat ""
    (map (fun bx =>
            String.concat ""
              (map (fun by_ => dump_text (block_at data (bx * blocks_down + by_)) bx by_)
                   (py_range blocks_down)))
         (py_range blocks_across)).


(** A step on a file open for reading that leaves its content alone. *)
Definition keeps_data {A} (m : M rfile A) : Prop :=
  forall f r f', m f = (r, f') -> rdata f' = rdata f.

(** The first line of a dumped block, and the line of one row of cells. *)
Definition block_title (bx by_ : Z) : string :=
  "# Block (" +:+ pretty bx +:+ "," +:+ pretty by_ +:+ ") — 8x8 cells, format tile:alt".
Definition row_text (row : list (Z * Z)) : string :=
  String.concat " " (map (fun c => format_04d (fst c) +:+ ":" +:+ format_plus_d (snd c)) row).

(** A writer that succeeds and appends exactly [w], whatever was written
    before. *)
Definition writes (m : M bytes unit) (w : bytes) : Prop :=
  forall f, m f = (Ok tt, f ++ w).

(** * Properties *)

(** ** The state monad and loops *)

Lemma bind_ok {S A B} (m : M S A) (k : A -> M S B) s a s' :
  m s = (Ok a, s') -> bind m k s = k a s'.
Proof. intros H. unfold bind. now rewrite H. Qed.

Lemma bind_raise {S A B} (m : M S A) (k : A -> M S B) s e s' :
  m s = (Raise e, s') -> bind m k s = (Raise e, s').
Proof. intros H. unfold bind. now rewrite H. Qed.

Lemma py_range_length n : length (py_range n) = Z.to_nat n.
Proof. unfold py_range. now rewrite length_map, length_seq. Qed.

(** ** Repetition of bytes *)

Lemma bytes_mul_0 b : bytes_mul b 0 = [].
Proof. reflexivity. Qed.

Lemma bytes_mul_succ b n : 0 <= n -> bytes_mul b (n + 1) = b ++ bytes_mul b n.
Proof.
  intros Hn. unfold bytes_mul.
  replace (Z.to_nat (n + 1)) with (S (Z.to_nat n)) by lia. reflexivity.
Qed.

Lemma bytes_mul_add b n m :
  0 <= n -> 0 <= m -> bytes_mul b (n + m) = bytes_mul b n ++ bytes_mul b m.
Proof.
  intros Hn Hm. unfold bytes_mul.
  rewrite Z2Nat.inj_add by lia. now rewrite replicate_add, concat_app.
Qed.

Lemma concat_replicate_length {A} (n : nat) (b : list A) :
  length (concat (replicate n b)) = (n * length b)%nat.
Proof.
  induction n as [|n IH]; [reflexivity|].
  cbn [replicate concat]. rewrite length_app, IH. lia.
Qed.

Lemma len_bytes_mul b n : 0 <= n -> len (bytes_mul b n) = n * len b.
Proof.
  intros Hn. unfold len, bytes_mul. rewrite concat_replicate_length. lia.
Qed.

Lemma len_app {A} (l k : list A) : len (l ++ k) = len l + len k.
Proof. unfold len. rewrite length_app. lia. Qed.

Lemma bytes_mul_mul b n m :
  0 <= n -> 0 <= m -> bytes_mul (bytes_mul b n) m = bytes_mul b (n * m).
Proof.
  intros Hn Hm. unfold bytes_mul.
  replace (Z.to_nat (n * m)) with (Z.to_nat m * Z.to_nat n)%nat by lia.
  induction (Z.to_nat m) as [|k IH]; [reflexivity|].
  cbn [replicate concat Nat.mul]. now rewrite IH, replicate_add, concat_app.
Qed.

Lemma zeros_add n m : 0 <= n -> 0 <= m -> zeros n ++ zeros m = zeros (n + m).
Proof. intros. unfold zeros. now rewrite bytes_mul_add. Qed.

Lemma zeros_mul n m : 0 <= n -> 0 <= m -> bytes_mul (zeros n) m = zeros (n * m).
Proof. intros. unfold zeros. now apply bytes_mul_mul. Qed.

Lemma len_zeros n : 0 <= n -> len (zeros n) = n.
Proof. intros. unfold zeros. rewrite len_bytes_mul by lia. unfold len. simpl. lia. Qed.

Lemma zeros_all_zero n : Forall (eq x00) (zeros n).
Proof.
  unfold zeros, bytes_mul. apply Forall_concat, Forall_replicate.
  now constructor.
Qed.

(** The [k]-th record of [n] copies of [b] is [b]. *)
Lemma record_at_bytes_mul b n k :
  (k < Z.to_nat n)%nat -> record_at (length b) (bytes_mul b n) k = b.
Proof.
  unfold record_at, bytes_mul. generalize (Z.to_nat n) as c. clear n.
  induction k as [|k IH]; intros c Hk.
  - destruct c as [|c]; [lia|]. cbn [replicate concat].
    rewrite Nat.mul_0_r, drop_0. now rewrite take_app_length.
  - destruct c as [|c]; [lia|]. cbn [replicate concat].
    replace (length b * S k)%nat with (length b + length b * k)%nat by lia.
    rewrite drop_app_add. apply IH. lia.
Qed.

(** ** Writers *)

Lemma writes_write b : writes (write b) b.
Proof. intros f. reflexivity. Qed.

Lemma writes_ret : writes (ret tt) [].
Proof. intros f. unfold ret. now rewrite app_nil_r. Qed.

Lemma writes_seq m1 m2 w1 w2 :
  writes m1 w1 -> writes m2 w2 -> writes (m1 ;; m2) (w1 ++ w2).
Proof.
  intros H1 H2 f. rewrite (bind_ok _ _ _ _ _ (H1 f)), H2. now rewrite app_assoc.
Qed.

Lemma writes_packed fmt vs b :
  struct.pack fmt vs = Ok b -> writes (write_packed fmt vs) b.
Proof.
  intros Hp f. unfold write_packed, bind, lift. rewrite Hp. reflexivity.
Qed.

Lemma writes_for_range n body w :
  writes body w -> writes (for_range n body) (bytes_mul w n).
Proof.
  intros Hb. unfold for_range, bytes_mul, py_range.
  generalize 0%nat as start. induction (Z.to_nat n) as [|k IH]; intros start f.
  - cbn. unfold ret. now rewrite app_nil_r.
  - cbn [seq map for_in replicate concat].
    rewrite (bind_ok _ _ _ _ _ (Hb f)), IH. now rewrite app_assoc.
Qed.

Lemma writes_ext m w w' : writes m w -> w = w' -> writes m w'.
Proof. now intros H <-. Qed.

Lemma open_wb_writes path m w s :
  writes m w -> open_wb path m s = (Ok tt, <[path := w]> s).
Proof. intros H. unfold open_wb. now rewrite (H []). Qed.

Lemma write_streamed_writes path m w force s :
  writes m w -> AxonometricLab.write_streamed path m force s = guarded_write path w force s.
Proof.
  intros H. unfold AxonometricLab.write_streamed, guarded_write.
  destruct (bool_decide _ && negb force); [reflexivity|]. now apply open_wb_writes.
Qed.

Lemma write_file_guarded path data force s :
  AxonometricLab.write_file path data force s = guarded_write path data force s.
Proof. reflexivity. Qed.

Ltac writes_steps :=
  repeat first
    [ apply writes_for_range
    | apply writes_write
    | eapply writes_packed; reflexivity
    | eapply writes_seq ].

(** ** The [struct] codecs *)

Lemma Z_of_byte_of_Z z : 0 <= z < 256 -> Z_of_byte (byte_of_Z z) = z.
Proof.
  intros Hz. unfold Z_of_byte, byte_of_Z.
  destruct (Byte.of_N (Z.to_N z)) as [b|] eqn:E.
  - apply Byte.to_of_N in E. rewrite E. lia.
  - apply Byte.of_N_None_iff in E. lia.
Qed.

Lemma pack_sentinel_unsigned :
  struct.pack [struct.c_I; struct.c_I; struct.c_I] [0xFFFFFFFF; 0; 0] = Ok sentinel_record.
Proof. reflexivity. Qed.

Lemma pack_sentinel_signed :
  struct.pack [struct.c_i; struct.c_i; struct.c_i] [-1; 0; 0] = Ok sentinel_record.
Proof. reflexivity. Qed.

Lemma unpack_sentinel_unsigned :
  struct.unpack [struct.c_I; struct.c_I; struct.c_I] sentinel_record = Ok [0xFFFFFFFF; 0; 0].
Proof. reflexivity. Qed.

Lemma unpack_sentinel_signed :
  struct.unpack [struct.c_i; struct.c_i; struct.c_i] sentinel_record = Ok [-1; 0; 0].
Proof. reflexivity. Qed.

Lemma pack_cell tile alt :
  0 <= tile <= 0xFFFF -> -128 <= alt <= 127 ->
  struct.pack [struct.c_H; struct.c_b] [tile; alt] = Ok (cell_bytes tile alt).
Proof.
  intros Ht Ha. unfold struct.pack, struct.pack1.
  change (struct.lo struct.c_H) with 0. change (struct.hi struct.c_H) with 65535.
  change (struct.lo struct.c_b) with (-128). change (struct.hi struct.c_b) with 127.
  replace ((0 <=? tile) && (tile <=? 65535)) with true by lia.
  replace ((-128 <=? alt) && (alt <=? 127)) with true by lia.
  change (2 ^ struct.bits struct.c_H) with 65536.
  change (2 ^ struct.bits struct.c_b) with 256.
  cbn [struct.size struct.le_encode app]. unfold cell_bytes.
  rewrite (Z.mod_small tile 65536) by lia. now rewrite Z.mod_mod by lia.
Qed.

Lemma decode_cell_bytes tile alt :
  0 <= tile <= 0xFFFF -> -128 <= alt <= 127 ->
  decode_cell (cell_bytes tile alt) = (tile, alt).
Proof.
  intros Ht Ha. unfold decode_cell, cell_bytes, struct.unpack1.
  cbn [take drop firstn skipn struct.le_decode struct.signed andb].
  change (2 ^ (struct.bits struct.c_b - 1)) with 128.
  change (2 ^ struct.bits struct.c_b) with 256.
  rewrite !Z_of_byte_of_Z by (apply Z.mod_pos_bound; lia).
  f_equal.
  - pose proof (Z.div_mod tile 256 ltac:(lia)).
    rewrite (Z.mod_small (tile / 256) 256); [lia|].
    split; [apply Z.div_pos; lia | apply Z.div_lt_upper_bound; lia].
  - pose proof (Z.div_mod alt 256 ltac:(lia)).
    pose proof (Z.mod_pos_bound alt 256 ltac:(lia)).
    rewrite Z.mul_0_r, Z.add_0_r.
    destruct (Z.leb_spec 128 (alt mod 256)); lia.
Qed.

(** ** tiledata.mul *)

Lemma land_group_writes :
  writes (write_packed [struct.c_I] [0] ;;
          for_range 32 (
            write_packed [struct.c_I] [0] ;;
            write_packed [struct.c_H] [0] ;;
            write AxonometricLab.NAME20_ZERO)) land_group.
Proof. eapply writes_ext; [writes_steps | vm_compute; reflexivity]. Qed.

Lemma static_group_writes :
  writes blankTileReg.write_static_group static_group.
Proof.
  unfold blankTileReg.write_static_group.
  eapply writes_ext; [writes_steps | vm_compute; reflexivity].
Qed.

Lemma tiledata_writer_writes : writes AxonometricLab.tiledata_writer tiledata_body.
Proof.
  unfold AxonometricLab.tiledata_writer, tiledata_body.
  apply writes_seq; apply writes_for_range;
    [apply land_group_writes | apply static_group_writes].
Qed.

Lemma len_land_group : len land_group = 836.
Proof. reflexivity. Qed.

Lemma len_static_group : len static_group = 1188.
Proof. reflexivity. Qed.

Lemma land_group_zeros : land_group = zeros 836.
Proof. vm_compute; reflexivity. Qed.

Lemma static_group_zeros : static_group = zeros 1188.
Proof. vm_compute; reflexivity. Qed.

Lemma tiledata_body_zeros : tiledata_body = zeros (512 * 836 + 2048 * 1188).
Proof.
  unfold tiledata_body. rewrite land_group_zeros, static_group_zeros.
  rewrite !zeros_mul, zeros_add by lia. reflexivity.
Qed.

(** C5: the tiledata writers take no counts and always write 512 land
    groups of 836 bytes followed by 2048 static groups of 1188 bytes, every
    byte zero: 512*836 + 2048*1188 bytes in all. *)
Theorem tiledata_container_fixed_layout :
  (forall out_dir force s,
      AxonometricLab.make_tiledata_mul out_dir force s
      = guarded_write (path_join out_dir "tiledata.mul") tiledata_body force s)
  /\ (forall s, blankTileReg.main s = (Ok tt, <["tiledata.mul"%string := tiledata_body]> s))
  /\ tiledata_body = bytes_mul land_group 512 ++ bytes_mul static_group 2048
  /\ len land_group = 4 + 32 * 26 /\ len static_group = 4 + 32 * 37
  /\ len tiledata_body = 512 * 836 + 2048 * 1188
  /\ Forall (eq x00) tiledata_body
  /\ blankTileReg.total = 512 * 836 + 2048 * 1188.
Proof.
  split; [|split; [|split; [|split; [|split; [|split; [|split]]]]]].
  - intros. apply write_streamed_writes, tiledata_writer_writes.
  - intros. apply open_wb_writes.
    apply writes_seq; apply writes_for_range;
      [apply land_group_writes | apply static_group_writes].
  - reflexivity.
  - reflexivity.
  - reflexivity.
  - rewrite tiledata_body_zeros. now rewrite len_zeros by lia.
  - rewrite tiledata_body_zeros. apply zeros_all_zero.
  - reflexivity.
Qed.

(** ** artidx.mul *)

Lemma len_sentinel_bytes n :
  0 <= n -> len (bytes_mul sentinel_record n) = 12 * n.
Proof. intros. rewrite len_bytes_mul by lia. change (len sentinel_record) with 12. lia. Qed.

Lemma sentinel_record_at n k :
  0 <= k < n -> record_at 12 (bytes_mul sentinel_record n) (Z.to_nat k) = sentinel_record.
Proof. intros. apply (record_at_bytes_mul sentinel_record). lia. Qed.

Lemma make_artidx_mul_some out_dir force n s :
  AxonometricLab.make_artidx_mul out_dir force (Some n) s
  = guarded_write (path_join out_dir "artidx.mul") (bytes_mul sentinel_record n) force s.
Proof. reflexivity. Qed.

Lemma make_art_stubs_some art_path artidx_path n s :
  blank_art_bin.make_art_stubs (Some art_path) (Some artidx_path) (Some n) s
  = (Ok tt, <[artidx_path := bytes_mul sentinel_record n]> (<[art_path := []]> s)).
Proof.
  unfold blank_art_bin.make_art_stubs. cbn [default].
  rewrite (bind_ok _ _ _ _ _ (open_wb_writes art_path _ _ s writes_ret)).
  apply open_wb_writes, writes_for_range, writes_packed. reflexivity.
Qed.

(** C6, as the code has it: for every entry count [n >= 0] both art index
    writers produce [n] sentinel records (0xFFFFFFFF, 0, 0), [12 * n] bytes;
    the default count is 0x14000 in [make_artidx_mul] and 0x10000 in
    [make_art_stubs]. *)
Theorem art_index_container_layout (n : Z) :
  0 <= n ->
  (forall out_dir force s,
      AxonometricLab.make_artidx_mul out_dir force (Some n) s
      = guarded_write (path_join out_dir "artidx.mul")
          (bytes_mul sentinel_record n) force s)
  /\ (forall art_path artidx_path s,
        blank_art_bin.make_art_stubs (Some art_path) (Some artidx_path) (Some n) s
        = (Ok tt, <[artidx_path := bytes_mul sentinel_record n]> (<[art_path := []]> s)))
  /\ len (bytes_mul sentinel_record n) = 12 * n
  /\ (forall k, 0 <= k < n ->
        record_at 12 (bytes_mul sentinel_record n) (Z.to_nat k) = sentinel_record)
  /\ struct.unpack [struct.c_I; struct.c_I; struct.c_I] sentinel_record
     = Ok [0xFFFFFFFF; 0; 0]
  /\ (forall out_dir force,
        AxonometricLab.make_artidx_mul out_dir force None
        = AxonometricLab.make_artidx_mul out_dir force (Some 0x14000))
  /\ AxonometricLab.arg_artidx_entries AxonometricLab.default_args = 0x14000
  /\ (forall art_path artidx_path,
        blank_art_bin.make_art_stubs art_path artidx_path None
        = blank_art_bin.make_art_stubs art_path artidx_path (Some 0x10000)).
Proof.
  intros Hn.
  split; [|split; [|split; [|split; [|split; [|split; [|split]]]]]].
  - intros. apply make_artidx_mul_some.
  - intros. apply make_art_stubs_some.
  - now apply len_sentinel_bytes.
  - intros. now apply sentinel_record_at.
  - apply unpack_sentinel_unsigned.
  - intros. unfold AxonometricLab.make_artidx_mul. cbn [default]. reflexivity.
  - reflexivity.
  - intros. unfold blank_art_bin.make_art_stubs. cbn [default]. reflexivity.
Qed.

Lemma art_index_container_layout_witness :
  len (bytes_mul sentinel_record 3) = 12 * 3
  /\ record_at 12 (bytes_mul sentinel_record 3) (Z.to_nat 2) = sentinel_record.
Proof.
  destruct (art_index_container_layout 3 ltac:(lia)) as (_ & _ & Hlen & Hrec & _).
  split; [exact Hlen | apply Hrec; lia].
Defined.

(** C6 as stated fails for the stand-alone stub writer: left to its
    default it writes 0x10000 records, not 0x14000. *)
Lemma art_stubs_default_is_0x10000 :
  exists data,
    snd (blank_art_bin.make_art_stubs None None None ∅) !! "artidx.mul"%string = Some data
    /\ len data = 12 * 0x10000
    /\ len data <> 12 * 0x14000.
Proof.
  exists (bytes_mul sentinel_record 0x10000).
  assert (blank_art_bin.make_art_stubs None None None
          = blank_art_bin.make_art_stubs (Some "art.mul"%string)
              (Some "artidx.mul"%string) (Some 0x10000)) as ->
    by (unfold blank_art_bin.make_art_stubs; cbn [default]; reflexivity).
  rewrite make_art_stubs_some. cbn [snd].
  rewrite lookup_insert_eq, len_sentinel_bytes by lia.
  split; [reflexivity | split; lia].
Qed.

(** ** Map2TXT: block addressing and dimension inference *)

(** C2: blocks are addressed column-major, 196 bytes each:
    offset(bx, by, blocks_down) = ((bx * blocks_down) + by) * 196. *)
Theorem block_offset_column_major (bx by_ blocks_down : Z) :
  Map2TXT.block_offset bx by_ blocks_down = ((bx * blocks_down) + by_) * 196
  /\ Map2TXT.BLOCK_SIZE_BYTES = 196
  /\ Map2TXT.block_offset bx (by_ + 1) blocks_down
     = Map2TXT.block_offset bx by_ blocks_down + 196
  /\ Map2TXT.block_offset (bx + 1) by_ blocks_down
     = Map2TXT.block_offset bx by_ blocks_down + blocks_down * 196.
Proof.
  unfold Map2TXT.block_offset. change Map2TXT.BLOCK_SIZE_BYTES with 196.
  split; [|split; [|split]]; lia.
Qed.

(** Distinct blocks of a column layout never share an offset. *)
Lemma block_offset_injective bx by_ bx' by' blocks_down :
  0 <= by_ < blocks_down -> 0 <= by' < blocks_down ->
  Map2TXT.block_offset bx by_ blocks_down = Map2TXT.block_offset bx' by' blocks_down ->
  bx = bx' /\ by_ = by'.
Proof.
  unfold Map2TXT.block_offset. change Map2TXT.BLOCK_SIZE_BYTES with 196.
  intros Hy Hy' Heq.
  assert ((bx - bx') * blocks_down = by' - by_) as Hdiff by lia.
  assert (bx = bx') by nia. subst bx'. lia.
Qed.

(** C10: a zero-length file is accepted: 0 is a multiple of 196, no table
    entry has product 0, and the fallback answers 0 x 0 blocks, 0 in all. *)
Theorem autodetect_empty_file :
  0 mod Map2TXT.BLOCK_SIZE_BYTES = 0
  /\ Map2TXT.lookup_dims Map2TXT.KNOWN_BLOCK_DIMS (0 / Map2TXT.BLOCK_SIZE_BYTES) = None
  /\ Map2TXT.autodetect_block_dims 0 = Ok (0, 0, "Heuristic"%string, 0).
Proof. split; [|split]; reflexivity. Qed.

(** ** map, staidx and statics of a facet *)

Lemma require_multiple_of_8_ok v name :
  valid_dimension v -> AxonometricLab.require_multiple_of_8 v name = Ok tt.
Proof.
  intros [Hpos Hmod]. unfold AxonometricLab.require_multiple_of_8.
  replace (v <=? 0) with false by lia. rewrite Hmod. reflexivity.
Qed.

Lemma require_multiple_of_8_fail v name :
  ~ valid_dimension v ->
  exists e, AxonometricLab.require_multiple_of_8 v name = Raise e /\ InvalidDimension e.
Proof.
  intros Hv. unfold AxonometricLab.require_multiple_of_8, InvalidDimension.
  destruct (Z.leb_spec v 0) as [H|H].
  - eexists; split; [reflexivity|]. exists name, v. now left.
  - destruct (Z.eqb_spec (v mod 8) 0) as [H8|H8].
    + exfalso. apply Hv. split; lia.
    + eexists; split; [reflexivity|]. exists name, v. now right.
Qed.

Lemma len_uniform_block tile alt : len (uniform_block tile alt) = 196.
Proof. reflexivity. Qed.

(** With valid parameters the writer is three guarded writes in a row. *)
Lemma make_map_and_statics_valid out_dir force facet width height tile alt s :
  valid_dimension width -> valid_dimension height -> valid_facet facet ->
  valid_tile tile -> valid_altitude alt ->
  AxonometricLab.make_map_and_statics out_dir force facet width height tile alt s
  = (guarded_write (map_path out_dir facet)
       (bytes_mul (uniform_block tile alt) (width / 8 * (height / 8))) force ;;
     guarded_write (staidx_path out_dir facet)
       (bytes_mul sentinel_record (width / 8 * (height / 8))) force ;;
     guarded_write (statics_path out_dir facet) [] force) s.
Proof.
  intros Hw Hh Hf Ht Ha. unfold AxonometricLab.make_map_and_statics.
  unfold valid_facet, valid_tile, valid_altitude in *.
  unfold bind at 1, lift at 1. rewrite (require_multiple_of_8_ok _ _ Hw).
  unfold bind at 1, lift at 1. rewrite (require_multiple_of_8_ok _ _ Hh).
  replace ((facet <? 0) || (facet >? 255)) with false by lia.
  replace ((tile <? 0) || (tile >? 16383)) with false by lia.
  replace ((alt <? -128) || (alt >? 127)) with false by lia.
  unfold bind at 1, lift at 1. rewrite pack_cell by lia.
  unfold bind at 1, lift at 1.
  change (struct.pack [struct.c_i] [0]) with (@Ok bytes (zeros 4)). cbv beta iota.
  change (zeros 4 ++ bytes_mul (cell_bytes tile alt) 64) with (uniform_block tile alt).
  rewrite len_uniform_block. cbn [Z.eqb Pos.eqb negb].
  unfold bind at 1, lift at 1. rewrite pack_sentinel_signed.
  fold (map_path out_dir facet) (staidx_path out_dir facet) (statics_path out_dir facet).
  unfold bind.
  rewrite (write_streamed_writes _ _ _ force s
             (writes_for_range (width / 8 * (height / 8)) _ _ (writes_write _))).
  destruct (guarded_write (map_path out_dir facet) _ force s) as [[[]|e] s1]; [|reflexivity].
  rewrite (write_streamed_writes _ _ _ force s1 (writes_write _)).
  destruct (guarded_write (staidx_path out_dir facet) _ force s1) as [[[]|e] s2];
    reflexivity.
Qed.

Lemma classic_dim v : valid_dimension v \/ ~ valid_dimension v.
Proof.
  unfold valid_dimension.
  destruct (Z.ltb_spec 0 v); destruct (Z.eqb_spec (v mod 8) 0); tauto || (right; lia).
Qed.

Lemma path_join_inj dir a b : path_join dir a = path_join dir b -> a = b.
Proof.
  unfold path_join. intros H. apply (String.app_inj dir) in H. now inversion H.
Qed.

Lemma facet_paths_distinct out_dir facet :
  map_path out_dir facet <> staidx_path out_dir facet
  /\ map_path out_dir facet <> statics_path out_dir facet
  /\ staidx_path out_dir facet <> statics_path out_dir facet.
Proof.
  unfold map_path, staidx_path, statics_path.
  split; [|split]; intros H; apply path_join_inj in H; discriminate H.
Qed.

Lemma guarded_write_ok path data force s r s' :
  guarded_write path data force s = (Ok r, s') -> s' = <[path := data]> s.
Proof.
  unfold guarded_write. destruct (bool_decide _ && negb force); congruence.
Qed.

Lemma guarded_write_raise path data force s e s' :
  guarded_write path data force s = (Raise e, s') ->
  s' = s /\ e = FileExistsError (AxonometricLab.exists_msg path)
  /\ is_Some (s !! path) /\ force = false.
Proof.
  unfold guarded_write.
  destruct (bool_decide (is_Some (s !! path))) eqn:E; destruct force; cbn; try congruence.
  intros [= <- <-]. apply bool_decide_eq_true in E. auto.
Qed.

Lemma guarded_write_free path data force s :
  s !! path = None \/ force = true ->
  guarded_write path data force s = (Ok tt, <[path := data]> s).
Proof.
  unfold guarded_write. intros [H| ->].
  - rewrite H. rewrite bool_decide_eq_false_2; [reflexivity|]. now intros [? ?].
  - now rewrite andb_false_r.
Qed.

Lemma guarded_write_taken path data s :
  is_Some (s !! path) ->
  guarded_write path data false s
  = (Raise (FileExistsError (AxonometricLab.exists_msg path)), s).
Proof.
  intros H. unfold guarded_write. now rewrite bool_decide_eq_true_2.
Qed.

(** What a successful run leaves behind. *)
Lemma make_map_and_statics_written out_dir force facet width height tile alt s r s' :
  valid_dimension width -> valid_dimension height -> valid_facet facet ->
  valid_tile tile -> valid_altitude alt ->
  AxonometricLab.make_map_and_statics out_dir force facet width height tile alt s
  = (Ok r, s') ->
  s' !! map_path out_dir facet
  = Some (bytes_mul (uniform_block tile alt) (width / 8 * (height / 8)))
  /\ s' !! staidx_path out_dir facet
     = Some (bytes_mul sentinel_record (width / 8 * (height / 8)))
  /\ s' !! statics_path out_dir facet = Some [].
Proof.
  intros Hw Hh Hf Ht Ha. rewrite make_map_and_statics_valid by assumption.
  destruct (facet_paths_distinct out_dir facet) as (N1 & N2 & N3).
  unfold bind.
  destruct (guarded_write (map_path out_dir facet) _ force s) as [[[]|e] s1] eqn:E1;
    [|discriminate].
  destruct (guarded_write (staidx_path out_dir facet) _ force s1) as [[[]|e] s2] eqn:E2;
    [|discriminate].
  intros E3.
  apply guarded_write_ok in E1, E2, E3. subst s' s2 s1.
  rewrite lookup_insert_eq, !lookup_insert_ne, !lookup_insert_eq by congruence.
  rewrite lookup_insert_ne, lookup_insert_eq by congruence. auto.
Qed.

(** A run with valid parameters succeeds when overwriting is allowed or
    none of the three files is there yet. *)
Lemma make_map_and_statics_succeeds out_dir force facet width height tile alt s :
  valid_dimension width -> valid_dimension height -> valid_facet facet ->
  valid_tile tile -> valid_altitude alt ->
  force = true
  \/ (s !! map_path out_dir facet = None /\ s !! staidx_path out_dir facet = None
      /\ s !! statics_path out_dir facet = None) ->
  exists s',
    AxonometricLab.make_map_and_statics out_dir force facet width height tile alt s
    = (Ok tt, s').
Proof.
  intros Hw Hh Hf Ht Ha Hfree. rewrite make_map_and_statics_valid by assumption.
  destruct (facet_paths_distinct out_dir facet) as (N1 & N2 & N3).
  unfold bind.
  rewrite guarded_write_free by tauto.
  rewrite guarded_write_free
    by (destruct Hfree as [|(?&?&?)]; [tauto|left; now rewrite lookup_insert_ne]).
  rewrite guarded_write_free
    by (destruct Hfree as [|(?&?&?)]; [tauto|left; now rewrite !lookup_insert_ne]).
  eauto.
Qed.

(** A run that succeeds had valid parameters. *)
Lemma make_map_and_statics_invalid out_dir force facet width height tile alt s :
  ~ (valid_dimension width /\ valid_dimension height /\ valid_facet facet
     /\ valid_tile tile /\ valid_altitude alt) ->
  exists e,
    AxonometricLab.make_map_and_statics out_dir force facet width height tile alt s
    = (Raise e, s)
    /\ ((~ valid_dimension width \/ ~ valid_dimension height) -> InvalidDimension e)
    /\ (valid_dimension width -> valid_dimension height ->
        ~ valid_facet facet -> InvalidFacet e)
    /\ (valid_dimension width -> valid_dimension height -> valid_facet facet ->
        ~ valid_tile tile -> InvalidTileId e)
    /\ (valid_dimension width -> valid_dimension height -> valid_facet facet ->
        valid_tile tile -> ~ valid_altitude alt -> InvalidAltitude e).
Proof.
  intros Hinv. unfold AxonometricLab.make_map_and_statics.
  destruct (classic_dim width) as [Hw|Hw].
  2:{ destruct (require_multiple_of_8_fail width "map-width" Hw) as (e & He & Hd).
      exists e. unfold bind at 1, lift at 1. rewrite He.
      split; [reflexivity|]. split; [auto|]. repeat split; intros; tauto. }
  unfold bind at 1, lift at 1. rewrite (require_multiple_of_8_ok _ _ Hw).
  destruct (classic_dim height) as [Hh|Hh].
  2:{ destruct (require_multiple_of_8_fail height "map-height" Hh) as (e & He & Hd).
      exists e. unfold bind at 1, lift at 1. rewrite He.
      split; [reflexivity|]. split; [auto|]. repeat split; intros; tauto. }
  unfold bind at 1, lift at 1. rewrite (require_multiple_of_8_ok _ _ Hh).
  unfold valid_facet, valid_tile, valid_altitude in *.
  destruct ((facet <? 0) || (facet >? 255)) eqn:Ef.
  { eexists. split; [reflexivity|]. unfold InvalidFacet.
    split; [tauto|]. split; [auto|]. split; intros; lia. }
  destruct ((tile <? 0) || (tile >? 16383)) eqn:Et.
  { eexists. split; [reflexivity|]. unfold InvalidTileId.
    split; [tauto|]. split; [intros; lia|]. split; [auto|]. intros; lia. }
  destruct ((alt <? -128) || (alt >? 127)) eqn:Ea.
  { eexists. split; [reflexivity|]. unfold InvalidAltitude.
    split; [tauto|]. split; [intros; lia|]. split; [intros; lia|]. auto. }
  exfalso. apply Hinv. split; [exact Hw | split; [exact Hh | lia]].
Qed.

Lemma valid_parameters_dec width height facet tile alt :
  (valid_dimension width /\ valid_dimension height /\ valid_facet facet
   /\ valid_tile tile /\ valid_altitude alt)
  \/ ~ (valid_dimension width /\ valid_dimension height /\ valid_facet facet
        /\ valid_tile tile /\ valid_altitude alt).
Proof.
  destruct (classic_dim width), (classic_dim height); try tauto.
  unfold valid_facet, valid_tile, valid_altitude.
  destruct (decide (0 <= facet <= 255 /\ 0 <= tile <= 16383 /\ -128 <= alt <= 127));
    tauto.
Qed.

Lemma make_map_and_statics_ok_valid out_dir force facet width height tile alt s r s' :
  AxonometricLab.make_map_and_statics out_dir force facet width height tile alt s
  = (Ok r, s') ->
  valid_dimension width /\ valid_dimension height /\ valid_facet facet
  /\ valid_tile tile /\ valid_altitude alt.
Proof.
  intros Hrun.
  destruct (valid_parameters_dec width height facet tile alt) as [V|NV]; [exact V|].
  destruct (make_map_and_statics_invalid out_dir force facet width height tile alt s NV)
    as (e & He & _).
  congruence.
Qed.

Lemma sentinel_records_decode n data :
  0 <= n ->
  data = bytes_mul sentinel_record n ->
  len data = n * 12
  /\ forall k, 0 <= k < n ->
       struct.unpack [struct.c_i; struct.c_i; struct.c_i]
         (record_at 12 data (Z.to_nat k)) = Ok [-1; 0; 0].
Proof.
  intros Hn ->. split.
  - rewrite len_sentinel_bytes; lia.
  - intros k Hk. rewrite sentinel_record_at by lia. apply unpack_sentinel_signed.
Qed.

Lemma emptyX_main_written blocks_x blocks_y s :
  emptyX.main blocks_x blocks_y s
  = (Ok tt, <["statics0.mul"%string := []]>
              (<["staidx0.mul"%string := bytes_mul sentinel_record (blocks_x * blocks_y)]> s)).
Proof.
  unfold emptyX.main.
  erewrite bind_ok; [apply open_wb_writes, writes_ret|].
  apply open_wb_writes. intros f. unfold bind, lift.
  now rewrite pack_sentinel_signed.
Qed.

(** C7: for a geometry of positive multiples of 8, the map file is
    (w/8)*(h/8)*196 bytes, the static index is (w/8)*(h/8)*12 bytes, one
    (-1, 0, 0) entry per block, and the static data file is empty; emptyX
    writes the same index and data files from the block counts. *)
Theorem map_and_statics_container_lengths
    out_dir force facet width height tile alt s :
  valid_dimension width -> valid_dimension height -> valid_facet facet ->
  valid_tile tile -> valid_altitude alt ->
  force = true
  \/ (s !! map_path out_dir facet = None /\ s !! staidx_path out_dir facet = None
      /\ s !! statics_path out_dir facet = None) ->
  exists s' map_data staidx_data,
    AxonometricLab.make_map_and_statics out_dir force facet width height tile alt s
    = (Ok tt, s')
    /\ s' !! map_path out_dir facet = Some map_data
    /\ len map_data = (width / 8) * (height / 8) * 196
    /\ s' !! staidx_path out_dir facet = Some staidx_data
    /\ len staidx_data = (width / 8) * (height / 8) * 12
    /\ (forall k, 0 <= k < (width / 8) * (height / 8) ->
          struct.unpack [struct.c_i; struct.c_i; struct.c_i]
            (record_at 12 staidx_data (Z.to_nat k)) = Ok [-1; 0; 0])
    /\ s' !! statics_path out_dir facet = Some []
    /\ (forall s0,
          emptyX.main (width / 8) (height / 8) s0
          = (Ok tt, <["statics0.mul"%string := []]>
                      (<["staidx0.mul"%string := staidx_data]> s0))).
Proof.
  intros Hw Hh Hf Ht Ha Hfree.
  destruct (make_map_and_statics_succeeds out_dir force facet width height tile alt s
              Hw Hh Hf Ht Ha Hfree) as (s' & Hrun).
  destruct (make_map_and_statics_written _ _ _ _ _ _ _ _ _ _ Hw Hh Hf Ht Ha Hrun)
    as (Hmap & Hidx & Hsta).
  assert (0 <= width / 8 * (height / 8)) as Hn.
  { destruct Hw, Hh. apply Z.mul_nonneg_nonneg; apply Z.div_pos; lia. }
  destruct (sentinel_records_decode (width / 8 * (height / 8)) _ Hn eq_refl)
    as (Hlen & Hrec).
  eexists s', _, _.
  split; [exact Hrun|]. split; [exact Hmap|].
  split; [rewrite len_bytes_mul, len_uniform_block by lia; lia|].
  split; [exact Hidx|]. split; [exact Hlen|]. split; [exact Hrec|].
  split; [exact Hsta|]. intros s0. apply emptyX_main_written.
Qed.

Lemma map_and_statics_container_lengths_witness :
  exists s' map_data staidx_data,
    AxonometricLab.make_map_and_statics "out" false 0 16 8 2 (-1) ∅ = (Ok tt, s')
    /\ s' !! map_path "out" 0 = Some map_data
    /\ len map_data = (16 / 8) * (8 / 8) * 196
    /\ s' !! staidx_path "out" 0 = Some staidx_data
    /\ len staidx_data = (16 / 8) * (8 / 8) * 12.
Proof.
  destruct (map_and_statics_container_lengths "out" false 0 16 8 2 (-1) ∅)
    as (s' & map_data & staidx_data & Hrun & Hmap & Hlen & Hidx & Hilen & _).
  - unfold valid_dimension. split; [lia | reflexivity].
  - unfold valid_dimension. split; [lia | reflexivity].
  - unfold valid_facet. lia.
  - unfold valid_tile. lia.
  - unfold valid_altitude. lia.
  - right. rewrite !lookup_empty. auto.
  - exists s', map_data, staidx_data. auto.
Defined.

(** C8: the parameter checks of the map writer.  A width or height that
    is not a positive multiple of 8 is InvalidDimension; then a facet outside
    [0, 255] is InvalidFacet, a tile id outside [0, 0x3FFF] InvalidTileId, an
    altitude outside [-128, 127] InvalidAltitude; nothing is written.  An 8 x 8
    map is exactly one block. *)
Theorem map_writer_parameter_checks out_dir force facet width height tile alt s :
  ((~ valid_dimension width \/ ~ valid_dimension height) ->
     exists e,
       AxonometricLab.make_map_and_statics out_dir force facet width height tile alt s
       = (Raise e, s) /\ InvalidDimension e)
  /\ (valid_dimension width -> valid_dimension height -> ~ valid_facet facet ->
      exists e,
        AxonometricLab.make_map_and_statics out_dir force facet width height tile alt s
        = (Raise e, s) /\ InvalidFacet e)
  /\ (valid_dimension width -> valid_dimension height -> valid_facet facet ->
      ~ valid_tile tile ->
      exists e,
        AxonometricLab.make_map_and_statics out_dir force facet width height tile alt s
        = (Raise e, s) /\ InvalidTileId e)
  /\ (valid_dimension width -> valid_dimension height -> valid_facet facet ->
      valid_tile tile -> ~ valid_altitude alt ->
      exists e,
        AxonometricLab.make_map_and_statics out_dir force facet width height tile alt s
        = (Raise e, s) /\ InvalidAltitude e)
  /\ (width = 8 -> height = 8 -> forall s',
        AxonometricLab.make_map_and_statics out_dir force facet width height tile alt s
        = (Ok tt, s') ->
        (width / 8) * (height / 8) = 1
        /\ s' !! map_path out_dir facet = Some (uniform_block tile alt)
        /\ len (uniform_block tile alt) = 196).
Proof.
  split; [|split; [|split; [|split]]].
  - intros H.
    destruct (make_map_and_statics_invalid out_dir force facet width height tile alt s)
      as (e & He & Hd & _); [tauto|]. eauto.
  - intros Hw Hh H.
    destruct (make_map_and_statics_invalid out_dir force facet width height tile alt s)
      as (e & He & _ & Hd & _); [tauto|]. eauto.
  - intros Hw Hh Hf H.
    destruct (make_map_and_statics_invalid out_dir force facet width height tile alt s)
      as (e & He & _ & _ & Hd & _); [tauto|]. eauto.
  - intros Hw Hh Hf Ht H.
    destruct (make_map_and_statics_invalid out_dir force facet width height tile alt s)
      as (e & He & _ & _ & _ & Hd); [tauto|]. eauto.
  - intros -> -> s' Hrun.
    destruct (make_map_and_statics_ok_valid _ _ _ _ _ _ _ _ _ _ Hrun)
      as (Hw & Hh & Hf & Ht & Ha).
    destruct (make_map_and_statics_written _ _ _ _ _ _ _ _ _ _ Hw Hh Hf Ht Ha Hrun)
      as (Hmap & _).
    split; [reflexivity|]. split; [|reflexivity].
    rewrite Hmap. change (8 / 8 * (8 / 8)) with (0 + 1).
    rewrite bytes_mul_succ, bytes_mul_0, app_nil_r by lia. reflexivity.
Qed.

Lemma map_writer_parameter_checks_witness :
  (exists e,
      AxonometricLab.make_map_and_statics "out" false 0 7 8 0 0 ∅ = (Raise e, ∅)
      /\ InvalidDimension e)
  /\ (exists e,
        AxonometricLab.make_map_and_statics "out" false 256 8 8 0 0 ∅ = (Raise e, ∅)
        /\ InvalidFacet e)
  /\ (exists e,
        AxonometricLab.make_map_and_statics "out" false 0 8 8 0x4000 0 ∅ = (Raise e, ∅)
        /\ InvalidTileId e)
  /\ (exists e,
        AxonometricLab.make_map_and_statics "out" false 0 8 8 0 128 ∅ = (Raise e, ∅)
        /\ InvalidAltitude e)
  /\ (8 / 8) * (8 / 8) = 1
  /\ snd (AxonometricLab.make_map_and_statics "out" false 0 8 8 0 0 ∅)
       !! map_path "out" 0 = Some (uniform_block 0 0).
Proof.
  assert (valid_dimension 8) as V8 by (split; [lia | reflexivity]).
  assert (valid_facet 0) as F0 by (unfold valid_facet; lia).
  assert (valid_tile 0) as T0 by (unfold valid_tile; lia).
  split; [|split; [|split; [|split]]].
  - apply (map_writer_parameter_checks "out" false 0 7 8 0 0 ∅).
    left. unfold valid_dimension. intros [_ H]. discriminate H.
  - apply (map_writer_parameter_checks "out" false 256 8 8 0 0 ∅); try assumption.
    unfold valid_facet. lia.
  - apply (map_writer_parameter_checks "out" false 0 8 8 0x4000 0 ∅); try assumption.
    unfold valid_tile. lia.
  - apply (map_writer_parameter_checks "out" false 0 8 8 0 128 ∅); try assumption.
    unfold valid_altitude. lia.
  - destruct (map_writer_parameter_checks "out" false 0 8 8 0 0 ∅) as (_ & _ & _ & _ & H).
    assert (AxonometricLab.make_map_and_statics "out" false 0 8 8 0 0 ∅
            = (Ok tt, snd (AxonometricLab.make_map_and_statics "out" false 0 8 8 0 0 ∅)))
      as Hrun by (vm_compute; reflexivity).
    destruct (H eq_refl eq_refl _ Hrun) as (H1 & H2 & _). split; assumption.
Defined.

(** ** Reading a block *)

Lemma read_block_loops bx by_ blocks_down :
  Map2TXT.read_block bx by_ blocks_down
  = (seek (Map2TXT.block_offset bx by_ blocks_down) ;;
     header <- read 4 ;;
     if negb (len header =? 4) then raise (SystemExit "Unexpected EOF in block header.")
     else cells <- for_in (py_range 8) read_row [] ;; ret (header, cells)).
Proof. reflexivity. Qed.

Lemma read_advance n f : read n f = (Ok (take n (remaining f)), advance n f).
Proof. reflexivity. Qed.

Lemma remaining_advance n f : remaining (advance n f) = drop n (remaining f).
Proof.
  unfold advance, remaining. cbn [rdata rpos].
  rewrite <- drop_drop. set (R := drop (rpos f) (rdata f)).
  rewrite length_take. destruct (Nat.le_gt_cases n (length R)).
  - now rewrite Nat.min_l.
  - rewrite Nat.min_r by lia. now rewrite !drop_ge by lia.
Qed.

Lemma rdata_advance n f : rdata (advance n f) = rdata f.
Proof. reflexivity. Qed.

Lemma read_cell_ok x row f :
  (3 <= length (remaining f))%nat ->
  read_cell x row f = (Ok (row ++ [decode_cell (take 3 (remaining f))]), advance 3 f).
Proof.
  intros Hlen. unfold read_cell. change (struct.calcsize Map2TXT.CELL_STRUCT) with 3%nat.
  rewrite (bind_ok _ _ _ _ _ (read_advance 3 f)).
  assert (length (take 3 (remaining f)) = 3%nat) as Hl by (rewrite length_take; lia).
  rewrite Hl. cbn [Nat.eqb negb]. unfold bind, lift, struct.unpack.
  change (struct.calcsize Map2TXT.CELL_STRUCT) with 3%nat. rewrite Hl.
  reflexivity.
Qed.

Lemma read_cell_short x row f :
  (length (remaining f) < 3)%nat ->
  read_cell x row f = (Raise (SystemExit "Unexpected EOF in block data."), advance 3 f).
Proof.
  intros Hlen. unfold read_cell. change (struct.calcsize Map2TXT.CELL_STRUCT) with 3%nat.
  rewrite (bind_ok _ _ _ _ _ (read_advance 3 f)).
  replace (length (take 3 (remaining f)) =? 3)%nat with false; [reflexivity|].
  symmetry. apply Nat.eqb_neq. rewrite length_take. lia.
Qed.

Lemma read_cells_ok xs : forall row f,
  (3 * length xs <= length (remaining f))%nat ->
  exists f',
    for_in xs read_cell row f = (Ok (row ++ decode_cells (length xs) (remaining f)), f')
    /\ remaining f' = drop (3 * length xs) (remaining f).
Proof.
  induction xs as [|x xs IH]; intros row f Hlen.
  - exists f. cbn. unfold ret. now rewrite app_nil_r.
  - cbn [length] in Hlen. cbn [for_in length decode_cells].
    rewrite (bind_ok _ _ _ _ _ (read_cell_ok x row f ltac:(lia))).
    destruct (IH (row ++ [decode_cell (take 3 (remaining f))]) (advance 3 f))
      as (f' & Hrun & Hrem).
    { rewrite remaining_advance, length_drop. lia. }
    exists f'. rewrite Hrun, Hrem, remaining_advance, drop_drop, <- app_assoc.
    split; [reflexivity|]. f_equal. lia.
Qed.

Lemma read_cells_short xs : forall row f,
  (length (remaining f) < 3 * length xs)%nat ->
  exists f',
    for_in xs read_cell row f = (Raise (SystemExit "Unexpected EOF in block data."), f').
Proof.
  induction xs as [|x xs IH]; intros row f Hlen; [cbn in Hlen; lia|].
  cbn [length] in Hlen. cbn [for_in].
  destruct (Nat.le_gt_cases 3 (length (remaining f))) as [H3|H3].
  - rewrite (bind_ok _ _ _ _ _ (read_cell_ok x row f H3)).
    apply IH. rewrite remaining_advance, length_drop. lia.
  - rewrite (bind_raise _ _ _ _ _ (read_cell_short x row f H3)). eauto.
Qed.

Lemma read_row_ok y cells f :
  (24 <= length (remaining f))%nat ->
  exists f',
    read_row y cells f = (Ok (cells ++ [decode_cells 8 (remaining f)]), f')
    /\ remaining f' = drop 24 (remaining f).
Proof.
  intros Hlen. unfold read_row.
  destruct (read_cells_ok (py_range 8) [] f) as (f' & Hrun & Hrem); [exact Hlen|].
  exists f'. now rewrite (bind_ok _ _ _ _ _ Hrun).
Qed.

Lemma read_row_short y cells f :
  (length (remaining f) < 24)%nat ->
  exists f',
    read_row y cells f = (Raise (SystemExit "Unexpected EOF in block data."), f').
Proof.
  intros Hlen. unfold read_row.
  destruct (read_cells_short (py_range 8) [] f) as (f' & Hrun); [exact Hlen|].
  exists f'. now rewrite (bind_raise _ _ _ _ _ Hrun).
Qed.

Lemma read_rows_ok ys : forall cells f,
  (24 * length ys <= length (remaining f))%nat ->
  exists f',
    for_in ys read_row cells f = (Ok (cells ++ decode_rows (length ys) (remaining f)), f')
    /\ remaining f' = drop (24 * length ys) (remaining f).
Proof.
  induction ys as [|y ys IH]; intros cells f Hlen.
  - exists f. cbn. unfold ret. now rewrite app_nil_r.
  - cbn [length] in Hlen. cbn [for_in length decode_rows].
    destruct (read_row_ok y cells f ltac:(lia)) as (f1 & Hrun1 & Hrem1).
    rewrite (bind_ok _ _ _ _ _ Hrun1).
    destruct (IH (cells ++ [decode_cells 8 (remaining f)]) f1) as (f' & Hrun & Hrem).
    { rewrite Hrem1, length_drop. lia. }
    exists f'. rewrite Hrun, Hrem, Hrem1, drop_drop, <- app_assoc.
    split; [reflexivity|]. f_equal. lia.
Qed.

Lemma read_rows_short ys : forall cells f,
  (length (remaining f) < 24 * length ys)%nat ->
  exists f',
    for_in ys read_row cells f = (Raise (SystemExit "Unexpected EOF in block data."), f').
Proof.
  induction ys as [|y ys IH]; intros cells f Hlen; [cbn in Hlen; lia|].
  cbn [length] in Hlen. cbn [for_in].
  destruct (Nat.le_gt_cases 24 (length (remaining f))) as [H|H].
  - destruct (read_row_ok y cells f H) as (f1 & Hrun1 & Hrem1).
    rewrite (bind_ok _ _ _ _ _ Hrun1). apply IH. rewrite Hrem1, length_drop. lia.
  - destruct (read_row_short y cells f H) as (f1 & Hrun1).
    rewrite (bind_raise _ _ _ _ _ Hrun1). eauto.
Qed.

(** [seek] accepts every offset inside the file, and every offset past
    its end that an [off_t] holds. *)
Lemma seek_accepts off f :
  0 <= off -> off <= OFF_T_MAX \/ off <= len (rdata f) ->
  seek off f = (Ok off, {| rdata := rdata f; rpos := Z.to_nat off |}).
Proof.
  intros H0 Hfit. unfold seek, fits_off_t.
  replace (OFF_T_MIN <=? off) with true by (unfold OFF_T_MIN; lia).
  replace ((off <=? OFF_T_MAX) || (off <=? len (rdata f))) with true
    by (symmetry; apply orb_true_iff; lia).
  cbn [andb negb]. now replace (off <? 0) with false by lia.
Qed.


(** The three outcomes of [read_block] at an offset [seek] accepts, by the
    number of bytes from the block's offset to the end of the file. *)
Lemma read_block_outcome bx by_ blocks_down f :
  0 <= Map2TXT.block_offset bx by_ blocks_down ->
  Map2TXT.block_offset bx by_ blocks_down <= OFF_T_MAX
  \/ Map2TXT.block_offset bx by_ blocks_down <= len (rdata f) ->
  let rem := drop (Z.to_nat (Map2TXT.block_offset bx by_ blocks_down)) (rdata f) in
  ((196 <= length rem)%nat ->
     exists f', Map2TXT.read_block bx by_ blocks_down f
                = (Ok (take 4 rem, decode_rows 8 (drop 4 rem)), f'))
  /\ ((length rem < 4)%nat ->
      exists f', Map2TXT.read_block bx by_ blocks_down f
                 = (Raise (SystemExit "Unexpected EOF in block header."), f'))
  /\ ((4 <= length rem < 196)%nat ->
      exists f', Map2TXT.read_block bx by_ blocks_down f
                 = (Raise (SystemExit "Unexpected EOF in block data."), f')).
Proof.
  intros Hoff Hfit rem. rewrite read_block_loops.
  set (off := Map2TXT.block_offset bx by_ blocks_down) in *.
  set (f0 := {| rdata := rdata f; rpos := Z.to_nat off |}).
  assert (seek off f = (Ok off, f0)) as Hseek by now apply seek_accepts.
  assert (remaining f0 = rem) as Hrem0 by reflexivity.
  rewrite (bind_ok _ _ _ _ _ Hseek), (bind_ok _ _ _ _ _ (read_advance 4 f0)), Hrem0.
  assert (remaining (advance 4 f0) = drop 4 rem) as Hrem4
    by (now rewrite remaining_advance, Hrem0).
  unfold len. rewrite length_take.
  split; [|split]; intros Hlen.
  - rewrite Nat.min_l by lia. change (Z.of_nat 4 =? 4) with true. cbn [negb].
    destruct (read_rows_ok (py_range 8) [] (advance 4 f0)) as (f' & Hrun & _).
    { rewrite Hrem4, length_drop, py_range_length. lia. }
    exists f'. rewrite (bind_ok _ _ _ _ _ Hrun), Hrem4. reflexivity.
  - rewrite Nat.min_r by lia.
    replace (Z.of_nat (length rem) =? 4) with false by lia. cbn [negb].
    eexists. reflexivity.
  - rewrite Nat.min_l by lia. change (Z.of_nat 4 =? 4) with true. cbn [negb].
    destruct (read_rows_short (py_range 8) [] (advance 4 f0)) as (f' & Hrun).
    { rewrite Hrem4, length_drop, py_range_length. lia. }
    exists f'. now rewrite (bind_raise _ _ _ _ _ Hrun).
Qed.


Lemma decode_rows_length n : forall rem, length (decode_rows n rem) = n.
Proof. induction n as [|n IH]; intros rem; cbn; [reflexivity | now rewrite IH]. Qed.





Lemma block_offset_nonneg bx by_ blocks_down :
  0 <= bx -> 0 <= by_ -> 0 <= blocks_down ->
  0 <= Map2TXT.block_offset bx by_ blocks_down.
Proof. intros. unfold Map2TXT.block_offset. change Map2TXT.BLOCK_SIZE_BYTES with 196. nia. Qed.







(** ** Writing a map and reading it back *)

Lemma drop_concat_replicate {A} (b : list A) k : forall n,
  (k <= n)%nat ->
  drop (length b * k) (concat (replicate n b)) = concat (replicate (n - k) b).
Proof.
  induction k as [|k IH]; intros n Hk.
  - now rewrite Nat.mul_0_r, drop_0, Nat.sub_0_r.
  - destruct n as [|n]; [lia|]. cbn [replicate concat Nat.sub].
    replace (length b * S k)%nat with (length b + length b * k)%nat by lia.
    rewrite drop_app_add. apply IH. lia.
Qed.

(** From the offset of block [k] on, a file of [n] copies of a block
    starts with that block. *)
Lemma drop_to_block (b : bytes) k n :
  0 <= k < n ->
  exists rest, drop (Z.to_nat (k * len b)) (bytes_mul b n) = b ++ rest.
Proof.
  intros Hk. unfold bytes_mul, len.
  replace (Z.to_nat (k * Z.of_nat (length b))) with (length b * Z.to_nat k)%nat by lia.
  rewrite drop_concat_replicate by lia.
  replace (Z.to_nat n - Z.to_nat k)%nat with (S (Z.to_nat n - Z.to_nat k - 1)) by lia.
  cbn [replicate concat]. eauto.
Qed.

Lemma decode_rows_uniform a b c rest :
  decode_rows 8 (bytes_mul [a; b; c] 64 ++ rest)
  = replicate 8 (replicate 8 (decode_cell [a; b; c])).
Proof. reflexivity. Qed.

Lemma uniform_block_read tile alt rest :
  0 <= tile <= 0xFFFF -> -128 <= alt <= 127 ->
  take 4 (uniform_block tile alt ++ rest) = zeros 4
  /\ decode_rows 8 (drop 4 (uniform_block tile alt ++ rest))
     = replicate 8 (replicate 8 (tile, alt)).
Proof.
  intros Ht Ha. split; [reflexivity|].
  change (drop 4 (uniform_block tile alt ++ rest))
    with (bytes_mul (cell_bytes tile alt) 64 ++ rest).
  unfold cell_bytes at 1. rewrite decode_rows_uniform.
  fold (cell_bytes tile alt). now rewrite decode_cell_bytes.
Qed.

(** C1: after a map is written with defaults (T, A), reading any block
    (bx, by) of the geometry with blocks_down = height/8 returns the header
    bytes 00 00 00 00 (the int32 0) and 8 rows of 8 cells, 64 cells in all,
    every one (T, A). *)
Theorem map_write_read_round_trip
    out_dir force facet width height tile alt s :
  valid_dimension width -> valid_dimension height -> valid_facet facet ->
  valid_tile tile -> valid_altitude alt ->
  force = true
  \/ (s !! map_path out_dir facet = None /\ s !! staidx_path out_dir facet = None
      /\ s !! statics_path out_dir facet = None) ->
  exists s' data,
    AxonometricLab.make_map_and_statics out_dir force facet width height tile alt s
    = (Ok tt, s')
    /\ s' !! map_path out_dir facet = Some data
    /\ len data = (width / 8) * (height / 8) * 196
    /\ forall bx by_ pos,
         0 <= bx < width / 8 -> 0 <= by_ < height / 8 ->
         exists cells f',
           Map2TXT.read_block bx by_ (height / 8) {| rdata := data; rpos := pos |}
           = (Ok ([x00; x00; x00; x00], cells), f')
           /\ cells = replicate 8 (replicate 8 (tile, alt))
           /\ concat cells = replicate 64 (tile, alt).
Proof.
  intros Hw Hh Hf Ht Ha Hfree.
  destruct (make_map_and_statics_succeeds out_dir force facet width height tile alt s
              Hw Hh Hf Ht Ha Hfree) as (s' & Hrun).
  destruct (make_map_and_statics_written _ _ _ _ _ _ _ _ _ _ Hw Hh Hf Ht Ha Hrun)
    as (Hmap & _).
  assert (0 < width / 8 /\ 0 < height / 8) as [Hbx Hby].
  { destruct Hw as [? Hw8], Hh as [? Hh8].
    pose proof (Z.div_mod width 8 ltac:(lia)).
    pose proof (Z.div_mod height 8 ltac:(lia)). lia. }
  eexists s', _. split; [exact Hrun|]. split; [exact Hmap|]. split.
  { rewrite len_bytes_mul, len_uniform_block by nia. lia. }
  intros bx by_ pos Hx Hy.
  set (f := {| rdata := _; rpos := pos |}).
  assert (0 <= bx * (height / 8) + by_ < width / 8 * (height / 8)) as Hk by nia.
  destruct (drop_to_block (uniform_block tile alt) _ _ Hk) as (rest & Hdrop).
  rewrite len_uniform_block in Hdrop.
  destruct (read_block_outcome bx by_ (height / 8) f) as (Hok & _).
  { apply block_offset_nonneg; lia. }
  { right. unfold f. cbn [rdata].
    rewrite len_bytes_mul, len_uniform_block by nia.
    unfold Map2TXT.block_offset. change Map2TXT.BLOCK_SIZE_BYTES with 196. nia. }
  cbn [rdata f] in Hok. unfold Map2TXT.block_offset in Hok.
  change Map2TXT.BLOCK_SIZE_BYTES with 196 in Hok. rewrite Hdrop in Hok.
  destruct Hok as (f' & Hread).
  { rewrite length_app. change (length (uniform_block tile alt)) with 196%nat. lia. }
  unfold valid_tile, valid_altitude in *.
  destruct (uniform_block_read tile alt rest) as (Hhead & Hcells); [lia | lia |].
  rewrite Hhead, Hcells in Hread.
  exists (replicate 8 (replicate 8 (tile, alt))), f'.
  split; [exact Hread|]. split; reflexivity.
Qed.

Lemma map_write_read_round_trip_witness :
  exists s' data,
    AxonometricLab.make_map_and_statics "out" false 0 16 8 2 (-1) ∅ = (Ok tt, s')
    /\ s' !! map_path "out" 0 = Some data
    /\ len data = 392
    /\ exists cells f',
         Map2TXT.read_block 1 0 (8 / 8) {| rdata := data; rpos := 0 |}
         = (Ok ([x00; x00; x00; x00], cells), f')
         /\ concat cells = replicate 64 (2, -1).
Proof.
  destruct (map_write_read_round_trip "out" false 0 16 8 2 (-1) ∅)
    as (s' & data & Hrun & Hmap & Hlen & Hread).
  - unfold valid_dimension. split; [lia | reflexivity].
  - unfold valid_dimension. split; [lia | reflexivity].
  - unfold valid_facet. lia.
  - unfold valid_tile. lia.
  - unfold valid_altitude. lia.
  - right. rewrite !lookup_empty. auto.
  - exists s', data. split; [exact Hrun|]. split; [exact Hmap|]. split; [exact Hlen|].
    destruct (Hread 1 0 0%nat ltac:(change (16 / 8) with 2; lia)
                ltac:(change (8 / 8) with 1; lia)) as (cells & f' & Hrun' & _ & Hall).
    exists cells, f'. split; [exact Hrun' | exact Hall].
Defined.

(** ** The pipeline of [main] *)

Lemma write_streamed_writes_fn path m w force :
  writes m w -> AxonometricLab.write_streamed path m force = guarded_write path w force.
Proof.
  intros H. unfold AxonometricLab.write_streamed, guarded_write, open_wb.
  now rewrite (H []).
Qed.

Lemma hues_writer_writes hue_groups :
  writes (AxonometricLab.hues_writer hue_groups) (bytes_mul hue_group hue_groups).
Proof.
  intros f. unfold AxonometricLab.hues_writer.
  unfold bind at 1, lift at 1.
  change (struct.pack [struct.c_H] [0]) with (@Ok bytes (zeros 2)). cbv beta iota.
  unfold bind at 1, lift at 1.
  change (struct.pack [struct.c_H] [0]) with (@Ok bytes (zeros 2)). cbv beta iota.
  change (bytes_mul [x00] (32 * 2) ++ zeros 2 ++ zeros 2 ++ bytes_mul [x00] 20)
    with (zeros 88).
  change (negb (len (zeros 88) =? 88)) with false. cbv beta iota.
  apply writes_for_range.
  eapply writes_ext; [writes_steps | reflexivity].
Qed.

(** [main] is five guarded writes, then the map writer. *)
Lemma main_steps a :
  AxonometricLab.main a
  = (let out_dir := AxonometricLab.arg_out a in
     let force := AxonometricLab.arg_force a in
     guarded_write (path_join out_dir "art.mul") [] force ;;
     guarded_write (path_join out_dir "artidx.mul")
       (bytes_mul sentinel_record (AxonometricLab.arg_artidx_entries a)) force ;;
     guarded_write (path_join out_dir "tiledata.mul") tiledata_body force ;;
     guarded_write (path_join out_dir "hues.mul")
       (bytes_mul hue_group (AxonometricLab.arg_hue_groups a)) force ;;
     guarded_write (path_join out_dir "radarcol.mul") (bytes_mul [x00; x00] 0x10000) force ;;
     AxonometricLab.make_map_and_statics out_dir force (AxonometricLab.arg_facet a)
       (AxonometricLab.arg_map_width a) (AxonometricLab.arg_map_height a)
       (AxonometricLab.arg_default_land a) (AxonometricLab.arg_default_z a) ;;
     ret 0).
Proof.
  unfold AxonometricLab.main, AxonometricLab.make_tiledata_mul,
    AxonometricLab.make_hues_mul. cbn [default].
  rewrite (write_streamed_writes_fn _ _ _ _ tiledata_writer_writes).
  rewrite (write_streamed_writes_fn _ _ _ _ (hues_writer_writes _)).
  reflexivity.
Qed.

Lemma bind_guarded_write_free {B} path data force (k : unit -> M fs B) s :
  s !! path = None \/ force = true ->
  bind (guarded_write path data force) k s = k tt (<[path := data]> s).
Proof. intros H. apply bind_ok. now apply guarded_write_free. Qed.

(** With [--force], a parameter that fails validation stops [main] only
    after the five fixed artifacts were written. *)
Lemma main_forced_invalid a s :
  AxonometricLab.arg_force a = true ->
  ~ (valid_dimension (AxonometricLab.arg_map_width a)
     /\ valid_dimension (AxonometricLab.arg_map_height a)
     /\ valid_facet (AxonometricLab.arg_facet a)
     /\ valid_tile (AxonometricLab.arg_default_land a)
     /\ valid_altitude (AxonometricLab.arg_default_z a)) ->
  exists e, AxonometricLab.main a s = (Raise e, after_fixed_artifacts a s).
Proof.
  intros Hforce Hinv. rewrite main_steps. cbv zeta.
  rewrite !bind_guarded_write_free by (right; exact Hforce).
  destruct (make_map_and_statics_invalid (AxonometricLab.arg_out a)
              (AxonometricLab.arg_force a) (AxonometricLab.arg_facet a)
              (AxonometricLab.arg_map_width a) (AxonometricLab.arg_map_height a)
              (AxonometricLab.arg_default_land a) (AxonometricLab.arg_default_z a)
              (after_fixed_artifacts a s) Hinv) as (e & He & _).
  exists e. unfold after_fixed_artifacts in He. cbv zeta in He.
  now rewrite (bind_raise _ _ _ _ _ He).
Qed.

(** C4 as stated fails: run with [--map-width 7] in an empty directory,
    [main] ends with InvalidDimension, yet art.mul, artidx.mul, tiledata.mul,
    hues.mul and radarcol.mul have been written in full. *)
Lemma main_writes_before_validation :
  exists e s',
    AxonometricLab.main args_width_7 ∅ = (Raise e, s')
    /\ InvalidDimension e
    /\ s' = after_fixed_artifacts args_width_7 ∅
    /\ s' !! "ClientMin/art.mul"%string = Some []
    /\ s' !! "ClientMin/tiledata.mul"%string = Some tiledata_body
    /\ s' <> ∅.
Proof.
  assert (~ valid_dimension 7) as H7 by (intros [_ H]; discriminate H).
  destruct (make_map_and_statics_invalid "ClientMin" false 0 7 256 0 0
              (after_fixed_artifacts args_width_7 ∅)) as (e & He & Hd & _); [tauto|].
  exists e, (after_fixed_artifacts args_width_7 ∅).
  split; [|split; [tauto|split; [reflexivity|]]].
  - rewrite main_steps. cbv zeta.
    change (AxonometricLab.arg_out args_width_7) with "ClientMin"%string.
    change (AxonometricLab.arg_force args_width_7) with false.
    rewrite bind_guarded_write_free by (left; apply lookup_empty).
    rewrite bind_guarded_write_free
      by (left; rewrite lookup_insert_ne by discriminate; apply lookup_empty).
    rewrite bind_guarded_write_free
      by (left; rewrite !lookup_insert_ne by discriminate; apply lookup_empty).
    rewrite bind_guarded_write_free
      by (left; rewrite !lookup_insert_ne by discriminate; apply lookup_empty).
    rewrite bind_guarded_write_free
      by (left; rewrite !lookup_insert_ne by discriminate; apply lookup_empty).
    now rewrite (bind_raise _ _ _ _ _ He).
  - unfold after_fixed_artifacts. cbv zeta.
    change (AxonometricLab.arg_out args_width_7) with "ClientMin"%string.
    split; [|split].
    + do 4 (rewrite lookup_insert_ne by discriminate). apply lookup_insert_eq.
    + do 2 (rewrite lookup_insert_ne by discriminate). apply lookup_insert_eq.
    + apply insert_non_empty.
Qed.

Lemma make_map_and_statics_invalid_kind out_dir force facet width height tile alt s :
  ~ (valid_dimension width /\ valid_dimension height /\ valid_facet facet
     /\ valid_tile tile /\ valid_altitude alt) ->
  exists e,
    AxonometricLab.make_map_and_statics out_dir force facet width height tile alt s
    = (Raise e, s)
    /\ (InvalidDimension e \/ InvalidFacet e \/ InvalidTileId e \/ InvalidAltitude e).
Proof.
  intros Hinv.
  destruct (make_map_and_statics_invalid out_dir force facet width height tile alt s Hinv)
    as (e & He & Hd & Hf & Ht & Ha).
  exists e. split; [exact He|].
  destruct (classic_dim width) as [Hw|Hw]; [|left; apply Hd; now left].
  destruct (classic_dim height) as [Hh|Hh]; [|left; apply Hd; now right].
  destruct (decide (0 <= facet <= 255)) as [Vf|Vf]; [|right; left; now apply Hf].
  destruct (decide (0 <= tile <= 0x3FFF)) as [Vt|Vt]; [|right; right; left; now apply Ht].
  right; right; right. apply Ha; try assumption.
  intros Va. apply Hinv. repeat (split; [assumption|]). exact Va.
Qed.

Lemma make_map_and_statics_second_taken out_dir facet width height tile alt s :
  valid_dimension width -> valid_dimension height -> valid_facet facet ->
  valid_tile tile -> valid_altitude alt ->
  s !! map_path out_dir facet = None ->
  is_Some (s !! staidx_path out_dir facet) ->
  AxonometricLab.make_map_and_statics out_dir false facet width height tile alt s
  = (Raise (FileExistsError (AxonometricLab.exists_msg (staidx_path out_dir facet))),
     <[map_path out_dir facet
       := bytes_mul (uniform_block tile alt) (width / 8 * (height / 8))]> s).
Proof.
  intros Hw Hh Hf Ht Ha Hmap Hidx. rewrite make_map_and_statics_valid by assumption.
  destruct (facet_paths_distinct out_dir facet) as (N1 & _).
  rewrite bind_guarded_write_free by now left.
  apply bind_raise, guarded_write_taken. now rewrite lookup_insert_ne.
Qed.

(** C4, as the code has it: every check guards the writes that follow it
    in its own writer, not the whole pipeline.  [make_map_and_statics] checks
    dimension, facet, tile id and altitude before it writes anything, and
    writes nothing when one of them fails; [write_file] and [write_streamed]
    leave an existing destination untouched without [--force].  The
    destination of an artifact is checked when its writer is reached, so
    the artifacts before it have been written by then. *)
Theorem checks_guard_their_own_writer :
  (forall out_dir force facet width height tile alt s,
      ~ (valid_dimension width /\ valid_dimension height /\ valid_facet facet
         /\ valid_tile tile /\ valid_altitude alt) ->
      exists e,
        AxonometricLab.make_map_and_statics out_dir force facet width height tile alt s
        = (Raise e, s)
        /\ (InvalidDimension e \/ InvalidFacet e \/ InvalidTileId e \/ InvalidAltitude e))
  /\ (forall path data s,
        is_Some (s !! path) ->
        exists e,
          AxonometricLab.write_file path data false s = (Raise e, s)
          /\ DestinationExists e)
  /\ (forall path writer_fn s,
        is_Some (s !! path) ->
        exists e,
          AxonometricLab.write_streamed path writer_fn false s = (Raise e, s)
          /\ DestinationExists e)
  /\ (forall out_dir facet width height tile alt s,
        valid_dimension width -> valid_dimension height -> valid_facet facet ->
        valid_tile tile -> valid_altitude alt ->
        s !! map_path out_dir facet = None ->
        is_Some (s !! staidx_path out_dir facet) ->
        exists e,
          AxonometricLab.make_map_and_statics out_dir false facet width height tile alt s
          = (Raise e,
             <[map_path out_dir facet
               := bytes_mul (uniform_block tile alt) (width / 8 * (height / 8))]> s)
          /\ DestinationExists e)
  /\ (forall a s,
        AxonometricLab.arg_force a = true ->
        ~ (valid_dimension (AxonometricLab.arg_map_width a)
           /\ valid_dimension (AxonometricLab.arg_map_height a)
           /\ valid_facet (AxonometricLab.arg_facet a)
           /\ valid_tile (AxonometricLab.arg_default_land a)
           /\ valid_altitude (AxonometricLab.arg_default_z a)) ->
        exists e, AxonometricLab.main a s = (Raise e, after_fixed_artifacts a s)).
Proof.
  split; [|split; [|split; [|split]]].
  - intros. now apply make_map_and_statics_invalid_kind.
  - intros path data s Hex. eexists. split.
    + rewrite write_file_guarded. now apply guarded_write_taken.
    + now exists path.
  - intros path writer_fn s Hex. eexists. split.
    + unfold AxonometricLab.write_streamed.
      rewrite bool_decide_eq_true_2 by exact Hex. reflexivity.
    + now exists path.
  - intros out_dir facet width height tile alt s Hw Hh Hf Ht Ha Hmap Hidx.
    eexists. split.
    + now apply make_map_and_statics_second_taken.
    + now eexists.
  - intros a s Hforce Hinv. now apply main_forced_invalid.
Qed.

Lemma checks_guard_their_own_writer_witness :
  (exists e,
      AxonometricLab.make_map_and_statics "out" false 0 7 8 0 0 ∅ = (Raise e, ∅))
  /\ (exists e,
        AxonometricLab.write_file "out/art.mul" [] false {["out/art.mul"%string := [x00]]}
        = (Raise e, {["out/art.mul"%string := [x00]]})
        /\ DestinationExists e).
Proof.
  destruct checks_guard_their_own_writer as (Hparams & Hfile & _).
  split.
  - destruct (Hparams "out"%string false 0 7 8 0 0 ∅) as (e & He & _).
    + intros ([_ H] & _). discriminate H.
    + now exists e.
  - apply Hfile. rewrite lookup_singleton_eq. now eexists.
Defined.

(** ** Dimension inference *)

(** [lookup_dims] answers with the first entry of the table whose
    product is [total_blocks]. *)
Lemma lookup_dims_first items total_blocks :
  match Map2TXT.lookup_dims items total_blocks with
  | Some r =>
      exists pre ax ay label post,
        items = pre ++ ((ax, ay), label) :: post
        /\ Forall (fun it => fst (fst it) * snd (fst it) <> total_blocks) pre
        /\ ax * ay = total_blocks
        /\ r = (ax, ay, label, total_blocks)
  | None => Forall (fun it => fst (fst it) * snd (fst it) <> total_blocks) items
  end.
Proof.
  induction items as [|[[ax ay] label] items IH]; cbn [Map2TXT.lookup_dims].
  - constructor.
  - destruct (Z.eqb_spec (ax * ay) total_blocks) as [E|E].
    + exists [], ax, ay, label, items. repeat split; [constructor | exact E].
    + destruct (Map2TXT.lookup_dims items total_blocks) as [r|].
      * destruct IH as (pre & ax' & ay' & label' & post & -> & Hpre & Hprod & ->).
        exists (((ax, ay), label) :: pre), ax', ay', label', post.
        repeat split; [constructor; assumption | exact Hprod].
      * constructor; assumption.
Qed.

Lemma heuristic_label_fresh :
  Forall (fun it => snd it <> "Heuristic"%string) Map2TXT.KNOWN_BLOCK_DIMS.
Proof. repeat constructor; discriminate. Qed.

Lemma math_sqrt_raises n e :
  math.sqrt n = Raise e -> (exists m, e = OverflowError m) \/ (exists m, e = ValueError m).
Proof.
  unfold math.sqrt, math.float_of_int.
  destruct (binary_normalize math.prec math.emax n 0 false) as [|b| |[|] m x];
    intros [= <-]; eauto.
Qed.

Lemma math_int_of_float_raises x e :
  math.int_of_float x = Raise e ->
  (exists m, e = OverflowError m) \/ (exists m, e = ValueError m).
Proof. destruct x; intros [= <-]; eauto. Qed.

Lemma autodetect_misaligned file_size :
  file_size mod 196 <> 0 ->
  Map2TXT.autodetect_block_dims file_size
  = Raise (SystemExit (Map2TXT.misaligned_msg file_size)).
Proof.
  intros H. unfold Map2TXT.autodetect_block_dims.
  change Map2TXT.BLOCK_SIZE_BYTES with 196.
  destruct (Z.eqb_spec (file_size mod 196) 0); [contradiction | reflexivity].
Qed.

Lemma autodetect_aligned file_size :
  file_size mod 196 = 0 ->
  Map2TXT.autodetect_block_dims file_size
  = match Map2TXT.lookup_dims Map2TXT.KNOWN_BLOCK_DIMS (file_size / 196) with
    | Some r => Ok r
    | None =>
        match math.sqrt (file_size / 196) with
        | Raise e => Raise e
        | Ok x =>
            match math.int_of_float x with
            | Raise e => Raise e
            | Ok r => Ok (r, r, "Heuristic"%string, file_size / 196)
            end
        end
    end.
Proof.
  intros H. unfold Map2TXT.autodetect_block_dims.
  change Map2TXT.BLOCK_SIZE_BYTES with 196. rewrite H. reflexivity.
Qed.

(** What holds of dimension inference for every file size: it fails with
    MisalignedFileSize exactly when the size is not a multiple of 196; a
    result is the first table entry of that product, under its own label, or
    a square labelled "Heuristic", a label no table entry carries. *)
Lemma autodetect_block_dims_cases file_size :
  ((exists e, Map2TXT.autodetect_block_dims file_size = Raise e /\ MisalignedFileSize e)
   <-> file_size mod 196 <> 0)
  /\ (forall ax ay label total_blocks,
        Map2TXT.autodetect_block_dims file_size = Ok (ax, ay, label, total_blocks) ->
        total_blocks = file_size / 196
        /\ ((label <> "Heuristic"%string
             /\ exists pre post,
                  Map2TXT.KNOWN_BLOCK_DIMS = pre ++ ((ax, ay), label) :: post
                  /\ Forall (fun it => fst (fst it) * snd (fst it) <> total_blocks) pre
                  /\ ax * ay = total_blocks)
            \/ (label = "Heuristic"%string /\ ax = ay
                /\ Forall (fun it => fst (fst it) * snd (fst it) <> total_blocks)
                     Map2TXT.KNOWN_BLOCK_DIMS))).
Proof.
  split.
  - split.
    + intros (e & He & file_size' & Hmis) Hmod.
      destruct (Z.eq_dec (file_size mod 196) 0) as [E|E]; [|auto]. subst e.
      rewrite (autodetect_aligned _ E) in He.
      destruct (Map2TXT.lookup_dims _ _); [discriminate|].
      destruct (math.sqrt _) as [x|e] eqn:Es.
      * destruct (math.int_of_float x) as [r|e] eqn:Ei; [discriminate|].
        injection He as He. destruct (math_int_of_float_raises _ _ Ei) as [[m ->]|[m ->]];
          discriminate.
      * injection He as He. destruct (math_sqrt_raises _ _ Es) as [[m ->]|[m ->]];
          discriminate.
    + intros Hmod. eexists. split; [now apply autodetect_misaligned|]. now eexists.
  - intros ax ay label total_blocks Hrun.
    destruct (Z.eq_dec (file_size mod 196) 0) as [E|E];
      [|rewrite autodetect_misaligned in Hrun by exact E; discriminate].
    rewrite (autodetect_aligned _ E) in Hrun.
    pose proof (lookup_dims_first Map2TXT.KNOWN_BLOCK_DIMS (file_size / 196)) as Hfirst.
    destruct (Map2TXT.lookup_dims _ _) as [r|] eqn:El.
    + injection Hrun as ->.
      destruct Hfirst as (pre & ax' & ay' & label' & post & Htab & Hpre & Hprod & [= -> -> -> ->]).
      split; [reflexivity|]. left. split.
      * pose proof heuristic_label_fresh as Hfresh. rewrite Forall_forall in Hfresh.
        apply (Hfresh ((ax', ay'), label')). rewrite Htab.
        apply elem_of_app. right. now left.
      * exists pre, post. auto.
    + destruct (math.sqrt _) as [x|e]; [|discriminate].
      destruct (math.int_of_float x) as [r|e]; [|discriminate].
      injection Hrun as <- <- <- <-. split; [reflexivity|]. right.
      split; [reflexivity | split; [reflexivity | exact Hfirst]].
Qed.

(** ** The binary64 square root on small integers *)

Lemma fexp_small e : -1021 <= e -> fexp 53 1024 e = e - 53.
Proof. intros H. unfold fexp, emin. lia. Qed.

Lemma digits2_pos_bounds p :
  2 ^ (Z.pos (digits2_pos p) - 1) <= Z.pos p < 2 ^ Z.pos (digits2_pos p).
Proof.
  induction p as [p IH|p IH|]; cbn [digits2_pos]; [| |cbn; lia];
    rewrite Pos2Z.inj_succ;
    replace (Z.succ (Z.pos (digits2_pos p)) - 1) with (Z.succ (Z.pos (digits2_pos p) - 1))
      by lia;
    rewrite !Z.pow_succ_r by lia; lia.
Qed.

Lemma digits2_pos_unique m d :
  2 ^ (d - 1) <= Z.pos m < 2 ^ d -> Z.pos (digits2_pos m) = d.
Proof.
  intros [Hlo Hhi]. pose proof (digits2_pos_bounds m) as [Blo Bhi].
  assert (0 < d).
  { destruct (Z.lt_ge_cases 0 d) as [|Hd]; [assumption|].
    destruct (Z.eq_dec d 0) as [->|]; [cbn in Hhi; lia|].
    rewrite Z.pow_neg_r in Hhi by lia. lia. }
  assert (d - 1 < Z.pos (digits2_pos m))
    by (apply (Z.pow_lt_mono_r_iff 2); lia).
  assert (Z.pos (digits2_pos m) - 1 < d)
    by (apply (Z.pow_lt_mono_r_iff 2); lia).
  lia.
Qed.

Lemma iter_xO_pow m n : Z.pos (Pos.iter xO m n) = Z.pos m * 2 ^ Z.pos n.
Proof.
  induction n as [|n IH] using Pos.peano_ind.
  - cbn [Pos.iter]. lia.
  - rewrite Pos.iter_succ, Pos2Z.inj_succ, Z.pow_succ_r by lia.
    rewrite Pos2Z.inj_xO, IH. lia.
Qed.

Lemma shl_align_down mx ex ex' :
  ex' < ex -> shl_align mx ex ex' = (Pos.iter xO mx (Z.to_pos (ex - ex')), ex').
Proof.
  intros H. unfold shl_align. destruct (ex' - ex) as [|d|d] eqn:E; try lia.
  do 2 f_equal. lia.
Qed.

Lemma shr_fexp_canonical m e l :
  fexp 53 1024 (Zdigits2 m + e) = e ->
  shr_fexp 53 1024 m e l = (shr_record_of_loc m l, e).
Proof. intros H. unfold shr_fexp. rewrite H, Z.sub_diag. reflexivity. Qed.

Lemma round_of_shr_record m l :
  round_nearest_even (shr_m (shr_record_of_loc m l))
    (loc_of_shr_record (shr_record_of_loc m l))
  = round_nearest_even m l.
Proof. destruct l as [|[]]; reflexivity. Qed.

Lemma binary_round_aux_canonical sx m e l :
  fexp 53 1024 (Zdigits2 m + e) = e ->
  fexp 53 1024 (Zdigits2 (round_nearest_even m l) + e) = e ->
  0 < round_nearest_even m l -> e <= 1024 - 53 ->
  binary_round_aux 53 1024 sx m e l
  = S754_finite sx (Z.to_pos (round_nearest_even m l)) e.
Proof.
  intros H1 H2 Hpos He. unfold binary_round_aux.
  rewrite (shr_fexp_canonical _ _ _ H1), round_of_shr_record.
  rewrite (shr_fexp_canonical _ _ _ H2).
  replace (shr_m (shr_record_of_loc (round_nearest_even m l) loc_Exact))
    with (round_nearest_even m l) by reflexivity.
  destruct (round_nearest_even m l) as [|q|q]; try lia.
  replace (e <=? 1024 - 53) with true by lia. reflexivity.
Qed.

Lemma canonical_53 m e :
  -1074 <= e -> 2 ^ 52 <= m < 2 ^ 53 -> fexp 53 1024 (Zdigits2 m + e) = e.
Proof.
  intros He Hm. destruct m as [|p|p]; try lia. cbn [Zdigits2].
  rewrite (digits2_pos_unique p 53) by (change (53 - 1) with 52; lia).
  rewrite fexp_small by lia. lia.
Qed.

(** [float(n)] is exact below 2^52: the mantissa is [n] shifted to 53 bits. *)
Lemma float_of_int_exact p :
  Z.pos p < 2 ^ 52 ->
  math.float_of_int (Z.pos p)
  = Ok (S754_finite false
          (Pos.iter xO p (Z.to_pos (53 - Z.pos (digits2_pos p))))
          (Z.pos (digits2_pos p) - 53)).
Proof.
  intros Hp. pose proof (digits2_pos_bounds p) as [Blo Bhi].
  set (d := Z.pos (digits2_pos p)) in *.
  assert (1 <= d <= 52) as Hd.
  { split; [subst d; lia|].
    assert (d - 1 < 52) by (apply (Z.pow_lt_mono_r_iff 2); lia). lia. }
  unfold math.float_of_int, math.prec, math.emax, binary_normalize, binary_round.
  fold d. rewrite Z.add_0_r, fexp_small by lia.
  rewrite shl_align_down by lia. rewrite Z.sub_0_l.
  replace (- (d - 53)) with (53 - d) by lia.
  set (m1 := Pos.iter xO p (Z.to_pos (53 - d))).
  assert (Z.pos m1 = Z.pos p * 2 ^ (53 - d)) as Hm1
    by (subst m1; rewrite iter_xO_pow, Z2Pos.id by lia; reflexivity).
  assert (2 ^ 52 <= Z.pos m1 < 2 ^ 53) as Hm1b.
  { assert (2 ^ 52 = 2 ^ (d - 1) * 2 ^ (53 - d)) as E52
      by (rewrite <- Z.pow_add_r by lia; f_equal; lia).
    assert (2 ^ 53 = 2 ^ d * 2 ^ (53 - d)) as E53
      by (rewrite <- Z.pow_add_r by lia; f_equal; lia).
    rewrite Hm1, E52, E53.
    pose proof (Z.pow_pos_nonneg 2 (53 - d) ltac:(lia) ltac:(lia)). nia. }
  cbv zeta.
  rewrite binary_round_aux_canonical; cbn [round_nearest_even].
  - reflexivity.
  - apply canonical_53; lia.
  - apply canonical_53; lia.
  - lia.
  - lia.
Qed.

(** The integer core of the argument: the root of [n] scaled by [T],
    rounded to nearest, still has integer part [sqrt n] as long as
    [sqrt n + 1 <= H < T]. *)
Lemma sqrt_scaled_round n T H q r :
  0 <= n -> 0 < T -> Z.sqrt n + 1 <= H -> H < T ->
  0 <= q -> n * (T * T) = q * q + r -> 0 <= r <= 2 * q ->
  let q2 := if r =? 0 then q else if r <=? q then q else q + 1 in
  Z.sqrt n * T <= q /\ Z.sqrt n * T <= q2 < (Z.sqrt n + 1) * T.
Proof.
  intros Hn HT HH HHT Hq Hsq Hr q2.
  pose proof (Z.sqrt_spec n Hn) as [Hlo Hhi]. cbv zeta in Hlo, Hhi.
  pose proof (Z.sqrt_nonneg n) as Hk.
  set (k := Z.sqrt n) in *. unfold Z.succ in Hhi.
  assert (k * T <= q) as Hq_lo.
  { destruct (Z.le_gt_cases (k * T) q) as [|Hlt]; [assumption|exfalso].
    assert ((q + 1) * (q + 1) <= (k * T) * (k * T)) by nia.
    assert ((k * T) * (k * T) <= n * (T * T)) by nia. nia. }
  assert (q < (k + 1) * T) as Hq_hi.
  { destruct (Z.lt_ge_cases q ((k + 1) * T)) as [|Hge]; [assumption|exfalso].
    assert (((k + 1) * T) * ((k + 1) * T) <= q * q) by nia.
    assert ((n + 1) * (T * T) <= ((k + 1) * T) * ((k + 1) * T)) by nia. nia. }
  split; [exact Hq_lo|]. subst q2.
  destruct (Z.eqb_spec r 0); [lia|].
  destruct (Z.leb_spec r q); [lia|].
  split; [lia|].
  destruct (Z.lt_ge_cases (q + 1) ((k + 1) * T)) as [|Hge]; [assumption|exfalso].
  assert (q + 1 = (k + 1) * T) as Heq by lia.
  assert ((n + 1) * (T * T) <= ((k + 1) * T) * ((k + 1) * T)) as HA by nia.
  rewrite <- Heq in HA.
  assert (T * T <= q) as HB by nia.
  assert ((k + 1) * T <= H * T) as HC by nia.
  assert (H * T < T * T) as HD by nia.
  lia.
Qed.

Lemma match_pos {A} (s : Z) (a b c : A) :
  0 < s -> match s with Z.pos _ => a | 0 => b | Z.neg _ => c end = a.
Proof. destruct s; intros; [lia | reflexivity | lia]. Qed.

(** [int(math.sqrt(n))] is the integer square root of [n] below 2^52. *)
Lemma int_sqrt_float_exact n :
  0 <= n < 2 ^ 52 ->
  exists x, math.sqrt n = Ok x /\ math.int_of_float x = Ok (Z.sqrt n).
Proof.
  intros [Hn0 Hn]. destruct n as [|p|p]; [eexists; split; reflexivity | | lia].
  pose proof (digits2_pos_bounds p) as [Blo Bhi].
  unfold math.sqrt. rewrite float_of_int_exact by exact Hn.
  set (d := Z.pos (digits2_pos p)) in *.
  assert (1 <= d <= 52) as Hd.
  { split; [subst d; lia|].
    assert (d - 1 < 52) by (apply (Z.pow_lt_mono_r_iff 2); lia). lia. }
  set (m1 := Pos.iter xO p (Z.to_pos (53 - d))).
  assert (Z.pos m1 = Z.pos p * 2 ^ (53 - d)) as Hm1
    by (subst m1; rewrite iter_xO_pow, Z2Pos.id by lia; reflexivity).
  assert (2 ^ 52 <= Z.pos m1 < 2 ^ 53) as Hm1b.
  { assert (2 ^ 52 = 2 ^ (d - 1) * 2 ^ (53 - d)) as E52
      by (rewrite <- Z.pow_add_r by lia; f_equal; lia).
    assert (2 ^ 53 = 2 ^ d * 2 ^ (53 - d)) as E53
      by (rewrite <- Z.pow_add_r by lia; f_equal; lia).
    rewrite Hm1, E52, E53.
    pose proof (Z.pow_pos_nonneg 2 (53 - d) ltac:(lia) ltac:(lia)). nia. }
  eexists. split; [reflexivity|].
  unfold SFsqrt, SFsqrt_core_binary, math.prec, math.emax. cbn [Zdigits2].
  rewrite (digits2_pos_unique m1 53) by (change (53 - 1) with 52; lia).
  set (h := (d + 1) / 2).
  assert (2 * h <= d + 1 <= 2 * h + 1) as Hh by (subst h; Z.div_mod_to_equations; lia).
  assert (Z.min (fexp 53 1024 (Z.div2 (53 + (d - 53) + 1))) (Z.div2 (d - 53)) = h - 53)
    as ->.
  { rewrite !Z.div2_div. replace (53 + (d - 53) + 1) with (d + 1) by lia. fold h.
    rewrite fexp_small by lia. Z.div_mod_to_equations. lia. }
  set (t := 53 - h).
  assert (27 <= t <= 52) as Ht by (subst t; lia).
  set (s := d - 53 - 2 * (h - 53)).
  assert (52 <= s <= 53) as Hs by (subst s; lia).
  rewrite (match_pos s) by lia.
  rewrite Z.shiftl_mul_pow2 by lia.
  assert (Z.pos m1 * 2 ^ s = Z.pos p * (2 ^ t * 2 ^ t)) as HM.
  { rewrite Hm1, <- Z.mul_assoc, <- !Z.pow_add_r by lia. do 2 f_equal. lia. }
  rewrite HM.
  pose proof (Z.sqrtrem_spec (Z.pos p * (2 ^ t * 2 ^ t)) ltac:(nia)) as Hspec.
  pose proof (Z.sqrtrem_sqrt (Z.pos p * (2 ^ t * 2 ^ t))) as Hsqrt.
  destruct (Z.sqrtrem (Z.pos p * (2 ^ t * 2 ^ t))) as [q r].
  destruct Hspec as [Hsq Hr]. cbn [fst] in Hsqrt.
  assert (0 <= q) as Hq0 by (rewrite Hsqrt; apply Z.sqrt_nonneg).
  (* powers *)
  assert (0 < 2 ^ t) as HT by (apply Z.pow_pos_nonneg; lia).
  assert (2 ^ 27 <= 2 ^ t) as HT27 by (apply Z.pow_le_mono_r; lia).
  assert (2 ^ h * 2 ^ t = 2 ^ 53) as HHT
    by (rewrite <- Z.pow_add_r by lia; f_equal; lia).
  assert (2 ^ h <= 2 ^ 26) as HH26 by (apply Z.pow_le_mono_r; lia).
  assert (Z.sqrt (Z.pos p) + 1 <= 2 ^ h) as Hk.
  { assert (Z.sqrt (Z.pos p) < 2 ^ h); [|lia].
    apply Z.sqrt_lt_square; [lia | apply Z.pow_nonneg; lia |].
    rewrite <- Z.pow_add_r by lia.
    apply Z.lt_le_trans with (2 ^ d); [exact Bhi | apply Z.pow_le_mono_r; lia]. }
  assert (2 ^ h < 2 ^ t) as Hlt by (apply Z.pow_lt_mono_r; lia).
  destruct (sqrt_scaled_round (Z.pos p) (2 ^ t) (2 ^ h) q r
              ltac:(lia) HT Hk Hlt Hq0 Hsq Hr) as [Hqlo Hq2].
  cbv zeta in Hq2.
  set (l := if r =? 0 then loc_Exact else loc_Inexact (if r <=? q then Lt else Gt)).
  assert (round_nearest_even q l
          = if r =? 0 then q else if r <=? q then q else q + 1) as Hround.
  { subst l. destruct (r =? 0); [reflexivity|]. destruct (r <=? q); reflexivity. }
  assert (2 ^ 52 <= q) as Hq52.
  { rewrite Hsqrt. apply Z.sqrt_le_square; [nia | lia |].
    rewrite <- HM.
    assert (2 ^ 52 <= 2 ^ s) by (apply Z.pow_le_mono_r; lia). nia. }
  assert (2 ^ 52 <= round_nearest_even q l < 2 ^ 53) as Hq2b.
  { rewrite Hround. split.
    - destruct (r =? 0); [lia|]. destruct (r <=? q); lia.
    - rewrite <- HHT. nia. }
  assert (q < 2 ^ 53) as Hq53.
  { apply Z.le_lt_trans with (round_nearest_even q l); [|lia].
    rewrite Hround. destruct (r =? 0); [lia|]. destruct (r <=? q); lia. }
  cbv zeta.
  rewrite binary_round_aux_canonical.
  - unfold math.int_of_float. rewrite Z2Pos.id by lia.
    rewrite Z.shiftl_div_pow2 by lia. replace (- (h - 53)) with t by (subst t; lia).
    f_equal. rewrite Hround. symmetry.
    apply Z.div_unique with
      ((if r =? 0 then q else if r <=? q then q else q + 1) - Z.sqrt (Z.pos p) * 2 ^ t);
      lia.
  - apply canonical_53; lia.
  - apply canonical_53; lia.
  - lia.
  - lia.
Qed.

(** Below 196 * 2^52 bytes dimension inference is exactly as specified:
    misaligned sizes are rejected, the first table entry of the right
    product wins, and the fallback is the integer square root. *)
Lemma autodetect_block_dims_below_2_52 file_size :
  0 <= file_size < 196 * 2 ^ 52 ->
  (file_size mod 196 <> 0 ->
     Map2TXT.autodetect_block_dims file_size
     = Raise (SystemExit (Map2TXT.misaligned_msg file_size)))
  /\ (file_size mod 196 = 0 ->
      Map2TXT.autodetect_block_dims file_size
      = match Map2TXT.lookup_dims Map2TXT.KNOWN_BLOCK_DIMS (file_size / 196) with
        | Some r => Ok r
        | None => Ok (Z.sqrt (file_size / 196), Z.sqrt (file_size / 196),
                      "Heuristic"%string, file_size / 196)
        end).
Proof.
  intros Hsize. split; [apply autodetect_misaligned|].
  intros Hmod. rewrite (autodetect_aligned _ Hmod).
  destruct (Map2TXT.lookup_dims _ _); [reflexivity|].
  destruct (int_sqrt_float_exact (file_size / 196)) as (x & -> & ->); [|reflexivity].
  split; [apply Z.div_pos; lia | apply Z.div_lt_upper_bound; lia].
Qed.

(** C3 fails on the code for large files: the fallback takes the square
    root in binary64 floating point, and for a file of 196 * (2^52 + 2^27)
    bytes, whose block count is (2^26 + 1)^2 - 1, the rounded root is
    2^26 + 1, one more than floor(sqrt(total_blocks)) = 2^26. *)
Theorem autodetect_sqrt_fallback_overshoots :
  882705553271291904 mod Map2TXT.BLOCK_SIZE_BYTES = 0
  /\ 882705553271291904 / Map2TXT.BLOCK_SIZE_BYTES = 4503599761588224
  /\ Map2TXT.lookup_dims Map2TXT.KNOWN_BLOCK_DIMS 4503599761588224 = None
  /\ Map2TXT.autodetect_block_dims 882705553271291904
     = Ok (67108865, 67108865, "Heuristic"%string, 4503599761588224)
  /\ Z.sqrt 4503599761588224 = 67108864.
Proof. split; [|split; [|split; [|split]]]; vm_compute; reflexivity. Qed.

(** * Further properties of the writers *)

Lemma len_bytes_mul_max b n : len (bytes_mul b n) = Z.max 0 n * len b.
Proof.
  destruct (Z.le_gt_cases 0 n).
  - rewrite len_bytes_mul by lia. now rewrite Z.max_r by lia.
  - unfold bytes_mul. replace (Z.to_nat n) with 0%nat by lia.
    now rewrite Z.max_l by lia.
Qed.

Lemma hue_group_zeros : hue_group = zeros 708.
Proof. vm_compute; reflexivity. Qed.

Lemma bytes_mul_zeros_all_zero n m : Forall (eq x00) (bytes_mul (zeros n) m).
Proof.
  unfold bytes_mul. apply Forall_concat, Forall_replicate, zeros_all_zero.
Qed.

(** The hues writer never trips its own 88-byte check: for every group
    count it writes that many groups of 708 zero bytes (none for a count
    below 1); the count defaults to 375. *)
Theorem hues_container_layout out_dir force hue_groups s :
  AxonometricLab.make_hues_mul out_dir force (Some hue_groups) s
  = guarded_write (path_join out_dir "hues.mul") (bytes_mul hue_group hue_groups) force s
  /\ len hue_group = 4 + 8 * 88
  /\ len (bytes_mul hue_group hue_groups) = Z.max 0 hue_groups * 708
  /\ Forall (eq x00) (bytes_mul hue_group hue_groups)
  /\ AxonometricLab.make_hues_mul out_dir force None
     = AxonometricLab.make_hues_mul out_dir force (Some 375).
Proof.
  split; [|split; [|split; [|split]]].
  - unfold AxonometricLab.make_hues_mul. cbn [default].
    now rewrite (write_streamed_writes_fn _ _ _ _ (hues_writer_writes _)).
  - reflexivity.
  - rewrite len_bytes_mul_max. change (len hue_group) with 708. reflexivity.
  - rewrite hue_group_zeros. apply bytes_mul_zeros_all_zero.
  - unfold AxonometricLab.make_hues_mul. cbn [default]. reflexivity.
Qed.

(** ** Files written in a row *)

Lemma write_all_lookup files : forall s p,
  write_all files s !! p
  = match last_write files p with
    | Some d => Some d
    | None => s !! p
    end.
Proof.
  induction files as [|[q d] files IH]; intros s p; cbn [write_all last_write];
    [reflexivity|].
  rewrite IH. destruct (last_write files p); [reflexivity|].
  destruct (decide (q = p)) as [->|Hne].
  - apply lookup_insert_eq.
  - now apply lookup_insert_ne.
Qed.

Lemma write_all_idempotent files s :
  write_all files (write_all files s) = write_all files s.
Proof.
  apply map_eq. intros p. rewrite !write_all_lookup.
  now destruct (last_write files p).
Qed.

Lemma last_write_None files p :
  p ∉ map fst files -> last_write files p = None.
Proof.
  induction files as [|[q d] files IH]; cbn [last_write map fst]; [reflexivity|].
  intros Hp. rewrite IH by (intros ?; apply Hp; now right).
  destruct (decide (q = p)) as [->|]; [|reflexivity].
  exfalso. apply Hp. now left.
Qed.

Ltac paths_ne :=
  unfold map_path, staidx_path, statics_path;
  let H := fresh in intros H; apply path_join_inj in H; discriminate H.

Lemma main_artifacts_nodup a : NoDup (map fst (main_artifacts a)).
Proof.
  unfold main_artifacts. cbv zeta. cbn [map fst].
  repeat (apply NoDup_cons_2;
          [rewrite ?elem_of_cons, elem_of_nil;
           intros Hin; repeat (destruct Hin as [Hin|Hin]); try contradiction;
           revert Hin; paths_ne|]).
  apply NoDup_nil_2.
Qed.

Lemma make_map_and_statics_run out_dir force facet width height tile alt s :
  valid_dimension width -> valid_dimension height -> valid_facet facet ->
  valid_tile tile -> valid_altitude alt ->
  force = true
  \/ (s !! map_path out_dir facet = None /\ s !! staidx_path out_dir facet = None
      /\ s !! statics_path out_dir facet = None) ->
  AxonometricLab.make_map_and_statics out_dir force facet width height tile alt s
  = (Ok tt,
     <[statics_path out_dir facet := []]>
       (<[staidx_path out_dir facet := bytes_mul sentinel_record (width / 8 * (height / 8))]>
          (<[map_path out_dir facet
             := bytes_mul (uniform_block tile alt) (width / 8 * (height / 8))]> s))).
Proof.
  intros Hw Hh Hf Ht Ha Hfree. rewrite make_map_and_statics_valid by assumption.
  destruct (facet_paths_distinct out_dir facet) as (N1 & N2 & N3).
  rewrite bind_guarded_write_free by tauto.
  rewrite bind_guarded_write_free
    by (destruct Hfree as [|(?&?&?)]; [tauto|left; now rewrite lookup_insert_ne]).
  apply guarded_write_free.
  destruct Hfree as [|(?&?&?)]; [tauto|left; now rewrite !lookup_insert_ne].
Qed.

Ltac in_paths := rewrite ?elem_of_cons; repeat first [now left | right].

(** A run of [main] with valid arguments, allowed to write each of its
    eight files, writes them all. *)
Lemma main_run a s :
  valid_args a ->
  AxonometricLab.arg_force a = true
  \/ (forall p, p ∈ map fst (main_artifacts a) -> s !! p = None) ->
  AxonometricLab.main a s = (Ok 0, write_all (main_artifacts a) s).
Proof.
  intros (Hw & Hh & Hf & Ht & Ha) Hfree. rewrite main_steps. cbv zeta.
  assert (forall p, p ∈ map fst (main_artifacts a) ->
            AxonometricLab.arg_force a = true \/ s !! p = None) as Hp
    by (intros p Hin; destruct Hfree as [|Hnone]; [now left | right; now apply Hnone]).
  unfold main_artifacts in Hp. cbv zeta in Hp. cbn [map fst] in Hp.
  rewrite bind_guarded_write_free
    by (destruct (Hp (path_join (AxonometricLab.arg_out a) "art.mul")) as [|];
        [in_paths | now right | now left]).
  rewrite bind_guarded_write_free
    by (destruct (Hp (path_join (AxonometricLab.arg_out a) "artidx.mul")) as [|];
        [in_paths | now right
         | left; do 1 (rewrite lookup_insert_ne by paths_ne); assumption]).
  rewrite bind_guarded_write_free
    by (destruct (Hp (path_join (AxonometricLab.arg_out a) "tiledata.mul")) as [|];
        [in_paths | now right
         | left; do 2 (rewrite lookup_insert_ne by paths_ne); assumption]).
  rewrite bind_guarded_write_free
    by (destruct (Hp (path_join (AxonometricLab.arg_out a) "hues.mul")) as [|];
        [in_paths | now right
         | left; do 3 (rewrite lookup_insert_ne by paths_ne); assumption]).
  rewrite bind_guarded_write_free
    by (destruct (Hp (path_join (AxonometricLab.arg_out a) "radarcol.mul")) as [|];
        [in_paths | now right
         | left; do 4 (rewrite lookup_insert_ne by paths_ne); assumption]).
  erewrite bind_ok; [reflexivity|].
  apply make_map_and_statics_run; try assumption.
  destruct (Hp (map_path (AxonometricLab.arg_out a) (AxonometricLab.arg_facet a)))
    as [|Hm]; [in_paths | now left |].
  destruct (Hp (staidx_path (AxonometricLab.arg_out a) (AxonometricLab.arg_facet a)))
    as [|Hi]; [in_paths | now left |].
  destruct (Hp (statics_path (AxonometricLab.arg_out a) (AxonometricLab.arg_facet a)))
    as [|Hs]; [in_paths | now left |].
  right. split; [|split]; do 5 (rewrite lookup_insert_ne by paths_ne); assumption.
Qed.

Lemma last_write_In files p d :
  NoDup (map fst files) -> (p, d) ∈ files -> last_write files p = Some d.
Proof.
  induction files as [|[q d'] files IH]; cbn [map fst last_write]; intros Hnd Hin.
  - now apply elem_of_nil in Hin.
  - apply NoDup_cons in Hnd as [Hq Hnd]. apply elem_of_cons in Hin as [[= -> ->]|Hin].
    + rewrite last_write_None by exact Hq. now rewrite decide_True.
    + now rewrite (IH Hnd Hin).
Qed.

Lemma main_artifacts_sizes a :
  map (fun f => len (snd f)) (main_artifacts a)
  = [ 0;
      Z.max 0 (AxonometricLab.arg_artidx_entries a) * 12;
      512 * 836 + 2048 * 1188;
      Z.max 0 (AxonometricLab.arg_hue_groups a) * 708;
      0x10000 * 2;
      Z.max 0 (AxonometricLab.arg_map_width a / 8 * (AxonometricLab.arg_map_height a / 8))
        * 196;
      Z.max 0 (AxonometricLab.arg_map_width a / 8 * (AxonometricLab.arg_map_height a / 8))
        * 12;
      0 ].
Proof.
  unfold main_artifacts. cbv zeta. cbn [map snd].
  rewrite !len_bytes_mul_max, tiledata_body_zeros, len_zeros by lia.
  reflexivity.
Qed.

(** A run of [main] with valid arguments, into a destination where it
    may write (forced, or none of its eight files there yet), returns 0,
    leaves each of the eight files with its full content and every other
    file untouched; the sizes are those of the fixed layouts. *)
Theorem main_writes_all_artifacts a s :
  valid_args a ->
  AxonometricLab.arg_force a = true
  \/ (forall p, p ∈ map fst (main_artifacts a) -> s !! p = None) ->
  exists s',
    AxonometricLab.main a s = (Ok 0, s')
    /\ (forall p d, (p, d) ∈ main_artifacts a -> s' !! p = Some d)
    /\ (forall p, p ∉ map fst (main_artifacts a) -> s' !! p = s !! p)
    /\ map (fun f => len (snd f)) (main_artifacts a)
       = [ 0;
           Z.max 0 (AxonometricLab.arg_artidx_entries a) * 12;
           512 * 836 + 2048 * 1188;
           Z.max 0 (AxonometricLab.arg_hue_groups a) * 708;
           0x10000 * 2;
           AxonometricLab.arg_map_width a / 8 * (AxonometricLab.arg_map_height a / 8) * 196;
           AxonometricLab.arg_map_width a / 8 * (AxonometricLab.arg_map_height a / 8) * 12;
           0 ].
Proof.
  intros Hv Hfree. exists (write_all (main_artifacts a) s).
  split; [now apply main_run|]. split; [|split].
  - intros p d Hin. rewrite write_all_lookup.
    now rewrite (last_write_In _ _ _ (main_artifacts_nodup a) Hin).
  - intros p Hp. rewrite write_all_lookup. now rewrite last_write_None.
  - rewrite main_artifacts_sizes. destruct Hv as ([? ?] & [? ?] & _).
    rewrite (Z.max_r 0 (_ / 8 * (_ / 8)))
      by (apply Z.mul_nonneg_nonneg; apply Z.div_pos; lia).
    reflexivity.
Qed.

Lemma main_writes_all_artifacts_witness :
  exists s',
    AxonometricLab.main AxonometricLab.default_args ∅ = (Ok 0, s')
    /\ s' !! path_join "ClientMin" "art.mul" = Some []
    /\ s' !! "notes.txt"%string = None.
Proof.
  destruct (main_writes_all_artifacts AxonometricLab.default_args ∅)
    as (s' & Hrun & Hfiles & Hother & _).
  - unfold valid_args, valid_dimension, valid_facet, valid_tile, valid_altitude.
    cbn. repeat split; (lia || reflexivity).
  - right. intros p _. apply lookup_empty.
  - exists s'. split; [exact Hrun|]. split.
    + apply Hfiles. unfold main_artifacts. cbv zeta. apply elem_of_cons. now left.
    + rewrite Hother; [apply lookup_empty|].
      unfold main_artifacts. cbv zeta. cbn [map fst].
      rewrite !elem_of_cons, elem_of_nil.
      intros Hin. repeat (destruct Hin as [Hin|Hin]); try contradiction; discriminate Hin.
Defined.

(** What a successful run of [main] was. *)
Lemma main_ok_inv a s r s1 :
  AxonometricLab.main a s = (Ok r, s1) ->
  valid_args a /\ r = 0 /\ s1 = write_all (main_artifacts a) s.
Proof.
  rewrite main_steps. cbv zeta. unfold bind. intros H.
  repeat match type of H with
  | context [guarded_write ?p ?d ?f ?t] =>
      let E := fresh "E" in
      destruct (guarded_write p d f t) as [[[]|?] ?] eqn:E;
      [apply guarded_write_ok in E; subst | discriminate H]
  end.
  destruct (AxonometricLab.make_map_and_statics _ _ _ _ _ _ _ _) as [[[]|?] s8] eqn:E6;
    [|discriminate H].
  injection H as <- <-.
  pose proof (make_map_and_statics_ok_valid _ _ _ _ _ _ _ _ _ _ E6) as Hv.
  split; [exact Hv|]. split; [reflexivity|].
  destruct Hv as (Hw & Hh & Hf & Ht & Ha).
  rewrite make_map_and_statics_valid in E6 by assumption. unfold bind in E6.
  repeat match type of E6 with
  | context [guarded_write ?p ?d ?f ?t] =>
      let E := fresh "E" in
      destruct (guarded_write p d f t) as [[[]|?] ?] eqn:E;
      [apply guarded_write_ok in E; subst | discriminate E6]
  end.
  injection E6 as <-. reflexivity.
Qed.

(** Running [main] again on what a successful run left: with [--force]
    the second run succeeds and changes nothing; without it the second
    run stops at art.mul with DestinationExists and changes nothing. *)
Theorem main_rerun a s r s1 :
  AxonometricLab.main a s = (Ok r, s1) ->
  r = 0
  /\ (AxonometricLab.arg_force a = true -> AxonometricLab.main a s1 = (Ok 0, s1))
  /\ (AxonometricLab.arg_force a = false ->
      exists e, AxonometricLab.main a s1 = (Raise e, s1) /\ DestinationExists e).
Proof.
  intros Hrun. destruct (main_ok_inv _ _ _ _ Hrun) as (Hv & -> & ->).
  split; [reflexivity|]. split.
  - intros Hforce. rewrite main_run by (assumption || now left).
    now rewrite write_all_idempotent.
  - intros Hforce. eexists. split; [|now eexists].
    rewrite main_steps. cbv zeta. rewrite Hforce.
    apply bind_raise, guarded_write_taken.
    rewrite write_all_lookup.
    erewrite (last_write_In _ _ _ (main_artifacts_nodup a)); [now eexists|].
    unfold main_artifacts. cbv zeta. in_paths.
Qed.

Lemma main_rerun_witness :
  exists s1,
    AxonometricLab.main AxonometricLab.default_args ∅ = (Ok 0, s1)
    /\ exists e,
         AxonometricLab.main AxonometricLab.default_args s1 = (Raise e, s1)
         /\ DestinationExists e.
Proof.
  assert (AxonometricLab.main AxonometricLab.default_args ∅
          = (Ok 0, write_all (main_artifacts AxonometricLab.default_args) ∅)) as Hrun.
  { apply main_run.
    - unfold valid_args, valid_dimension, valid_facet, valid_tile, valid_altitude.
      cbn. repeat split; (lia || reflexivity).
    - right. intros p _. apply lookup_empty. }
  eexists. split; [exact Hrun|].
  destruct (main_rerun _ _ _ _ Hrun) as (_ & _ & Hno). now apply Hno.
Defined.

(** ** What a run leaves alone *)

Lemma only_touches_guarded_write path data force :
  only_touches [path] (guarded_write path data force).
Proof.
  intros s r s' Hrun p Hp. unfold guarded_write in Hrun.
  destruct (bool_decide _ && negb force); injection Hrun as <- <-; [reflexivity|].
  apply lookup_insert_ne. intros ->. apply Hp. now left.
Qed.

Lemma only_touches_bind {A B} P Q (m : M fs A) (k : A -> M fs B) :
  only_touches P m -> (forall x, only_touches Q (k x)) ->
  only_touches (P ++ Q) (bind m k).
Proof.
  intros Hm Hk s r s' Hrun p Hp. unfold bind in Hrun.
  destruct (m s) as [[x|e] s1] eqn:E.
  - rewrite (Hk x _ _ _ Hrun p) by (intros ?; apply Hp, elem_of_app; now right).
    apply (Hm _ _ _ E). intros ?. apply Hp, elem_of_app. now left.
  - injection Hrun as <- <-. apply (Hm _ _ _ E). intros ?. apply Hp, elem_of_app. now left.
Qed.

Lemma only_touches_ret {A} (x : A) : only_touches [] (ret x).
Proof. intros s r s' [= <- <-] p _. reflexivity. Qed.

Lemma keeps_existing_guarded_write path data :
  keeps_existing (guarded_write path data false).
Proof.
  intros s r s' Hrun p d Hp. unfold guarded_write in Hrun.
  destruct (bool_decide (is_Some (s !! path))) eqn:E; cbn in Hrun;
    injection Hrun as <- <-; [exact Hp|].
  apply bool_decide_eq_false in E.
  rewrite lookup_insert_ne; [exact Hp|]. intros ->. apply E. exists d. exact Hp.
Qed.

Lemma keeps_existing_bind {A B} (m : M fs A) (k : A -> M fs B) :
  keeps_existing m -> (forall x, keeps_existing (k x)) -> keeps_existing (bind m k).
Proof.
  intros Hm Hk s r s' Hrun p d Hp. unfold bind in Hrun.
  destruct (m s) as [[x|e] s1] eqn:E.
  - apply (Hk x _ _ _ Hrun). now apply (Hm _ _ _ E).
  - injection Hrun as <- <-. now apply (Hm _ _ _ E).
Qed.

Lemma keeps_existing_ret {A} (x : A) : keeps_existing (@ret fs A x).
Proof. intros s r s' [= <- <-] p d Hp. exact Hp. Qed.

(** [make_map_and_statics] is its three guarded writes, or nothing. *)
Lemma make_map_and_statics_shape out_dir force facet width height tile alt s :
  (exists e,
      AxonometricLab.make_map_and_statics out_dir force facet width height tile alt s
      = (Raise e, s))
  \/ AxonometricLab.make_map_and_statics out_dir force facet width height tile alt s
     = (guarded_write (map_path out_dir facet)
          (bytes_mul (uniform_block tile alt) (width / 8 * (height / 8))) force ;;
        guarded_write (staidx_path out_dir facet)
          (bytes_mul sentinel_record (width / 8 * (height / 8))) force ;;
        guarded_write (statics_path out_dir facet) [] force) s.
Proof.
  destruct (valid_parameters_dec width height facet tile alt) as [(?&?&?&?&?)|NV].
  - right. now apply make_map_and_statics_valid.
  - left. destruct (make_map_and_statics_invalid out_dir force facet width height
                      tile alt s NV) as (e & He & _). eauto.
Qed.

Lemma only_touches_make_map_and_statics out_dir force facet width height tile alt :
  only_touches [map_path out_dir facet; staidx_path out_dir facet;
                statics_path out_dir facet]
    (AxonometricLab.make_map_and_statics out_dir force facet width height tile alt).
Proof.
  intros s r s' Hrun.
  destruct (make_map_and_statics_shape out_dir force facet width height tile alt s)
    as [(e & He)|Hs].
  - rewrite He in Hrun. injection Hrun as <- <-. reflexivity.
  - rewrite Hs in Hrun. clear Hs. revert s r s' Hrun.
    apply (only_touches_bind [_] [_; _]); [apply only_touches_guarded_write|]. intros _.
    apply (only_touches_bind [_] [_]); [apply only_touches_guarded_write|]. intros _.
    apply only_touches_guarded_write.
Qed.

Lemma keeps_existing_make_map_and_statics out_dir facet width height tile alt :
  keeps_existing
    (AxonometricLab.make_map_and_statics out_dir false facet width height tile alt).
Proof.
  intros s r s' Hrun.
  destruct (make_map_and_statics_shape out_dir false facet width height tile alt s)
    as [(e & He)|Hs].
  - rewrite He in Hrun. injection Hrun as <- <-. auto.
  - rewrite Hs in Hrun. clear Hs. revert s r s' Hrun.
    apply keeps_existing_bind; [apply keeps_existing_guarded_write|]. intros _.
    apply keeps_existing_bind; [apply keeps_existing_guarded_write|]. intros _.
    apply keeps_existing_guarded_write.
Qed.

(** However a run of [main] ends, and whatever its arguments, it has
    changed no file other than its own eight. *)
Theorem main_touches_only_its_artifacts a s r s' p :
  AxonometricLab.main a s = (r, s') ->
  p ∉ map fst (main_artifacts a) ->
  s' !! p = s !! p.
Proof.
  rewrite main_steps. cbv zeta. intros Hrun Hp.
  refine ((_ : only_touches (map fst (main_artifacts a)) _) _ _ _ Hrun p Hp).
  unfold main_artifacts. cbv zeta. cbn [map fst].
  apply (only_touches_bind [_] [_; _; _; _; _; _; _]);
    [apply only_touches_guarded_write|]. intros _.
  apply (only_touches_bind [_] [_; _; _; _; _; _]);
    [apply only_touches_guarded_write|]. intros _.
  apply (only_touches_bind [_] [_; _; _; _; _]);
    [apply only_touches_guarded_write|]. intros _.
  apply (only_touches_bind [_] [_; _; _; _]);
    [apply only_touches_guarded_write|]. intros _.
  apply (only_touches_bind [_] [_; _; _]);
    [apply only_touches_guarded_write|]. intros _.
  apply (only_touches_bind [_; _; _] []);
    [apply only_touches_make_map_and_statics|]. intros _.
  apply only_touches_ret.
Qed.

Lemma main_touches_only_its_artifacts_witness :
  snd (AxonometricLab.main args_width_7 {[ "notes.txt"%string := [x01] ]})
    !! "notes.txt"%string = Some [x01].
Proof.
  destruct (AxonometricLab.main args_width_7 {[ "notes.txt"%string := [x01] ]})
    as [r s'] eqn:Hrun.
  cbn [snd].
  rewrite (main_touches_only_its_artifacts _ _ _ _ "notes.txt"%string Hrun).
  - apply lookup_singleton_eq.
  - unfold main_artifacts. cbv zeta. cbn [map fst].
    rewrite !elem_of_cons, elem_of_nil.
    intros Hin. repeat (destruct Hin as [Hin|Hin]); try contradiction; discriminate Hin.
Defined.

(** Without [--force] a run of [main] never changes a file that was
    already there, however it ends. *)
Theorem main_keeps_existing_files a s r s' p d :
  AxonometricLab.arg_force a = false ->
  AxonometricLab.main a s = (r, s') ->
  s !! p = Some d ->
  s' !! p = Some d.
Proof.
  intros Hforce. rewrite main_steps. cbv zeta. rewrite Hforce. intros Hrun Hp.
  refine ((_ : keeps_existing _) _ _ _ Hrun p d Hp).
  repeat (apply keeps_existing_bind; [apply keeps_existing_guarded_write|]; intros _).
  apply keeps_existing_bind; [apply keeps_existing_make_map_and_statics|]. intros _.
  apply keeps_existing_ret.
Qed.

Lemma main_keeps_existing_files_witness :
  snd (AxonometricLab.main AxonometricLab.default_args
         {[ "ClientMin/hues.mul"%string := [x01] ]})
    !! "ClientMin/hues.mul"%string = Some [x01].
Proof.
  destruct (AxonometricLab.main AxonometricLab.default_args
              {[ "ClientMin/hues.mul"%string := [x01] ]}) as [r s'] eqn:Hrun.
  cbn [snd].
  apply (main_keeps_existing_files AxonometricLab.default_args _ _ _ _ _ eq_refl Hrun).
  apply lookup_singleton_eq.
Defined.

Lemma guarded_write_ok_free path data s r s' :
  guarded_write path data false s = (Ok r, s') -> s !! path = None.
Proof.
  unfold guarded_write. destruct (bool_decide (is_Some (s !! path))) eqn:E; cbn;
    [discriminate|]. intros _. apply bool_decide_eq_false in E.
  destruct (s !! path); [exfalso; apply E; now eexists | reflexivity].
Qed.

(** [make_map_and_statics] succeeds exactly when its parameters are
    valid and it may write: forced, or none of its three files there. *)
Theorem make_map_and_statics_succeeds_iff
    out_dir force facet width height tile alt s :
  (exists s',
      AxonometricLab.make_map_and_statics out_dir force facet width height tile alt s
      = (Ok tt, s'))
  <-> (valid_dimension width /\ valid_dimension height /\ valid_facet facet
       /\ valid_tile tile /\ valid_altitude alt)
      /\ (force = true
          \/ (s !! map_path out_dir facet = None
              /\ s !! staidx_path out_dir facet = None
              /\ s !! statics_path out_dir facet = None)).
Proof.
  split.
  - intros (s' & Hrun).
    pose proof (make_map_and_statics_ok_valid _ _ _ _ _ _ _ _ _ _ Hrun) as Hv.
    split; [exact Hv|]. destruct Hv as (Hw & Hh & Hf & Ht & Ha).
    destruct force; [now left | right].
    rewrite make_map_and_statics_valid in Hrun by assumption. unfold bind in Hrun.
    destruct (facet_paths_distinct out_dir facet) as (N1 & N2 & N3).
    destruct (guarded_write (map_path out_dir facet) _ false s) as [[[]|?] s1] eqn:E1;
      [|discriminate].
    destruct (guarded_write (staidx_path out_dir facet) _ false s1) as [[[]|?] s2] eqn:E2;
      [|discriminate].
    pose proof (guarded_write_ok_free _ _ _ _ _ E1) as F1.
    pose proof (guarded_write_ok_free _ _ _ _ _ E2) as F2.
    pose proof (guarded_write_ok_free _ _ _ _ _ Hrun) as F3.
    apply guarded_write_ok in E1, E2. subst s2 s1.
    rewrite lookup_insert_ne in F2 by congruence.
    rewrite !lookup_insert_ne in F3 by congruence. auto.
  - intros ((Hw & Hh & Hf & Ht & Ha) & Hfree).
    now apply make_map_and_statics_succeeds.
Qed.

Lemma make_map_and_statics_succeeds_iff_witness :
  exists s', AxonometricLab.make_map_and_statics "out" false 0 8 8 0 0 ∅ = (Ok tt, s').
Proof.
  apply (make_map_and_statics_succeeds_iff "out" false 0 8 8 0 0 ∅).
  unfold valid_dimension, valid_facet, valid_tile, valid_altitude.
  split; [repeat split; (lia || reflexivity)|].
  right. rewrite !lookup_empty. auto.
Defined.

(** * Further properties of the map reader *)

Lemma string_app_nil_r s : s +:+ "" = s.
Proof.
  induction s as [|c s IH]; [reflexivity|].
  change (String c (s +:+ "") = String c s). now f_equal.
Qed.

Lemma string_app_assoc a b c : (a +:+ b) +:+ c = a +:+ (b +:+ c).
Proof.
  induction a as [|x a IH]; [reflexivity|].
  change (String x ((a +:+ b) +:+ c) = String x (a +:+ (b +:+ c))). now f_equal.
Qed.

Lemma concat_empty_cons x xs :
  String.concat "" (x :: xs) = x +:+ String.concat "" xs.
Proof.
  destruct xs; [|reflexivity].
  change (String.concat "" [x]) with x. change (String.concat "" []) with EmptyString.
  symmetry. apply string_app_nil_r.
Qed.

(** ** The text of a block *)

Lemma dump_rows_loop cells k : forall a lines,
  for_in (map Z.of_nat (seq a k))
    (fun y lines =>
       match cells !! Z.to_nat y with
       | None => raise (IndexError "list index out of range")
       | Some row =>
           @ret unit _ (lines ++ [String.concat " "
                            (map (fun c => format_04d (fst c) +:+ ":" +:+ format_plus_d (snd c))
                                 row)])
       end) lines tt
  = if decide (a + k <= length cells \/ k = 0)%nat
    then (Ok (lines ++ map row_text (take k (drop a cells))), tt)
    else (Raise (IndexError "list index out of range"), tt).
Proof.
  induction k as [|k IH]; intros a lines.
  - cbn [seq map for_in take]. rewrite decide_True by now right.
    unfold ret. now rewrite app_nil_r.
  - cbn [seq map for_in]. rewrite Nat2Z.id.
    destruct (cells !! a) as [row|] eqn:E.
    + apply lookup_lt_Some in E as Hlt.
      erewrite bind_ok by reflexivity. rewrite IH.
      rewrite (drop_S _ _ _ E). cbn [take map]. fold (row_text row).
      rewrite <- app_assoc. cbn [app].
      destruct (decide (S a + k <= length cells \/ k = 0)%nat) as [H|H].
      * rewrite decide_True by (left; destruct H as [H| ->]; lia). reflexivity.
      * rewrite decide_False by lia. reflexivity.
    + apply lookup_ge_None in E. rewrite decide_False by lia. reflexivity.
Qed.

Lemma dump_block_pretty_text_aux cells bx by_ :
  (8 <= length cells)%nat ->
  Map2TXT.dump_block_pretty cells bx by_
  = Ok (String.concat newline (block_title bx by_ :: map row_text (take 8 cells))
        +:+ newline +:+ newline).
Proof.
  intros H. unfold Map2TXT.dump_block_pretty. cbv zeta.
  change (py_range 8) with (map Z.of_nat (seq 0 8)).
  rewrite dump_rows_loop, drop_0. rewrite decide_True by lia. reflexivity.
Qed.

(** The text of a block is its title and one line for each of the first
    8 rows, the cells of a row joined by spaces, ended by an empty line;
    rows after the eighth are ignored, and with fewer than 8 rows the
    function raises IndexError. *)
Theorem dump_block_pretty_text cells bx by_ :
  Map2TXT.dump_block_pretty cells bx by_
  = if decide (8 <= length cells)%nat
    then Ok (String.concat newline (block_title bx by_ :: map row_text (take 8 cells))
             +:+ newline +:+ newline)
    else Raise (IndexError "list index out of range").
Proof.
  unfold Map2TXT.dump_block_pretty. cbv zeta.
  change (py_range 8) with (map Z.of_nat (seq 0 8)).
  rewrite dump_rows_loop. rewrite drop_0.
  destruct (decide (8 <= length cells)%nat).
  - rewrite decide_True by lia. reflexivity.
  - rewrite decide_False by lia. reflexivity.
Qed.

Lemma dump_block_pretty_ok cells bx by_ :
  (8 <= length cells)%nat ->
  Map2TXT.dump_block_pretty cells bx by_ = Ok (dump_text cells bx by_).
Proof.
  intros H. unfold dump_text. rewrite dump_block_pretty_text_aux by exact H. reflexivity.
Qed.

(** ** Steps that leave the file content alone *)

Lemma keeps_data_bind {A B} (m : M rfile A) (k : A -> M rfile B) :
  keeps_data m -> (forall x, keeps_data (k x)) -> keeps_data (bind m k).
Proof.
  intros Hm Hk f r f' Hrun. unfold bind in Hrun.
  destruct (m f) as [[x|e] f1] eqn:E.
  - rewrite (Hk x _ _ _ Hrun). apply (Hm _ _ _ E).
  - injection Hrun as <- <-. apply (Hm _ _ _ E).
Qed.

Lemma keeps_data_ret {A} (x : A) : keeps_data (ret x).
Proof. now intros f r f' [= <- <-]. Qed.

Lemma keeps_data_raise {A} e : keeps_data (@raise rfile A e).
Proof. now intros f r f' [= <- <-]. Qed.

Lemma keeps_data_lift {A} (x : result A) : keeps_data (lift x).
Proof. now intros f r f' [= <- <-]. Qed.

Lemma keeps_data_seek off : keeps_data (seek off).
Proof.
  intros f r f' Hrun. unfold seek in Hrun.
  destruct (negb _); [now injection Hrun as <- <-|].
  destruct (off <? 0); now injection Hrun as <- <-.
Qed.

Lemma keeps_data_read n : keeps_data (read n).
Proof. now intros f r f' [= <- <-]. Qed.

Lemma keeps_data_for_in {A B} (xs : list A) (body : A -> B -> M rfile B) :
  (forall x acc, keeps_data (body x acc)) -> forall acc, keeps_data (for_in xs body acc).
Proof.
  intros Hb. induction xs as [|x xs IH]; intros acc; cbn [for_in].
  - apply keeps_data_ret.
  - apply keeps_data_bind; [apply Hb | intros acc'; apply IH].
Qed.

Lemma keeps_data_read_cell x row : keeps_data (read_cell x row).
Proof.
  unfold read_cell. apply keeps_data_bind; [apply keeps_data_read|]. intros data.
  destruct (negb _); [apply keeps_data_raise|].
  apply keeps_data_bind; [apply keeps_data_lift|]. intros fields.
  destruct fields as [|? [|? [|? ?]]];
    first [apply keeps_data_raise | apply keeps_data_ret].
Qed.

Lemma keeps_data_read_block bx by_ blocks_down :
  keeps_data (Map2TXT.read_block bx by_ blocks_down).
Proof.
  rewrite read_block_loops.
  apply keeps_data_bind; [apply keeps_data_seek|]. intros _.
  apply keeps_data_bind; [apply keeps_data_read|]. intros header.
  destruct (negb _); [apply keeps_data_raise|].
  apply keeps_data_bind; [|intros; apply keeps_data_ret].
  apply keeps_data_for_in. intros y cells. unfold read_row.
  apply keeps_data_bind; [|intros; apply keeps_data_ret].
  apply keeps_data_for_in. intros. apply keeps_data_read_cell.
Qed.

(** ** One block of a sweep *)

(** Reading and dumping the block at index [bx * blocks_down + by] of a
    file that holds it appends its text to the output. *)
Lemma dump_one_block data bx by_ blocks_down (st : rfile * string) :
  rdata (fst st) = data ->
  0 <= bx * blocks_down + by_ ->
  (bx * blocks_down + by_ + 1) * 196 <= len data ->
  exists f',
    (hc <- on_file (Map2TXT.read_block bx by_ blocks_down) ;;
     txt <- lift (Map2TXT.dump_block_pretty (snd hc) bx by_) ;;
     out_write txt) st
    = (Ok tt, (f', snd st +:+ dump_text (block_at data (bx * blocks_down + by_)) bx by_))
    /\ rdata f' = data.
Proof.
  intros Hdata Hk Hlen. destruct st as [f out]. cbn [fst snd] in *.
  destruct (read_block_outcome bx by_ blocks_down f) as (Hok & _).
  { unfold Map2TXT.block_offset. change Map2TXT.BLOCK_SIZE_BYTES with 196. lia. }
  { right. rewrite Hdata. unfold Map2TXT.block_offset.
    change Map2TXT.BLOCK_SIZE_BYTES with 196. lia. }
  destruct Hok as (f' & Hread).
  { rewrite length_drop, Hdata. unfold Map2TXT.block_offset.
    change Map2TXT.BLOCK_SIZE_BYTES with 196. unfold len in Hlen. lia. }
  exists f'. split; [|rewrite (keeps_data_read_block _ _ _ _ _ _ Hread); exact Hdata].
  unfold bind at 1, on_file. cbn [fst snd]. rewrite Hread. cbn [snd].
  unfold bind, lift. rewrite dump_block_pretty_ok by (rewrite decode_rows_length; lia).
  unfold out_write. cbn [fst snd]. rewrite Hdata. reflexivity.
Qed.

(** A loop whose every pass appends a text that depends on the loop
    variable only, and keeps the file content. *)
Lemma for_in_appends {A} (data : bytes) (txt : A -> string)
    (body : A -> unit -> M (rfile * string) unit) (xs : list A) :
  (forall x, x ∈ xs -> forall st, rdata (fst st) = data ->
     exists f', body x tt st = (Ok tt, (f', snd st +:+ txt x)) /\ rdata f' = data) ->
  forall st, rdata (fst st) = data ->
  exists f',
    for_in xs body tt st = (Ok tt, (f', snd st +:+ String.concat "" (map txt xs)))
    /\ rdata f' = data.
Proof.
  induction xs as [|x xs IH]; intros Hbody st Hdata.
  - exists (fst st). cbn [for_in map]. change (String.concat "" []) with EmptyString.
    rewrite string_app_nil_r. unfold ret. now destruct st.
  - cbn [for_in map]. rewrite concat_empty_cons.
    destruct (Hbody x ltac:(now left) st Hdata) as (f1 & Hrun1 & Hdata1).
    rewrite (bind_ok _ _ _ _ _ Hrun1).
    destruct (IH (fun y Hy => Hbody y ltac:(now right)) (f1, snd st +:+ txt x) Hdata1)
      as (f' & Hrun & Hdata').
    exists f'. cbn [snd] in Hrun. rewrite Hrun, string_app_assoc. auto.
Qed.

Lemma elem_of_py_range x n : x ∈ py_range n -> 0 <= x < n.
Proof.
  unfold py_range. rewrite list_elem_of_fmap. intros (i & -> & Hi).
  apply elem_of_seq in Hi. lia.
Qed.

(** The full sweep over a grid that fits in the file dumps every block of
    the grid, [bx] outer and [by] inner, and fails on none. *)
Lemma dump_blocks_sweep data blocks_across blocks_down (st : rfile * string) :
  rdata (fst st) = data ->
  0 <= blocks_across -> 0 <= blocks_down ->
  blocks_across * blocks_down * 196 <= len data ->
  exists f',
    Map2TXT.dump_blocks true blocks_across blocks_down st
    = (Ok tt, (f', snd st +:+ sweep_text data blocks_across blocks_down))
    /\ rdata f' = data.
Proof.
  intros Hdata Ha Hd Hfit. unfold Map2TXT.dump_blocks, sweep_text.
  apply (for_in_appends data
           (fun bx => String.concat ""
              (map (fun by_ => dump_text (block_at data (bx * blocks_down + by_)) bx by_)
                   (py_range blocks_down)))); [|exact Hdata].
  intros bx Hbx st1 Hdata1. apply elem_of_py_range in Hbx.
  apply (for_in_appends data
           (fun by_ => dump_text (block_at data (bx * blocks_down + by_)) bx by_));
    [|exact Hdata1].
  intros by_ Hby st2 Hdata2. apply elem_of_py_range in Hby.
  apply dump_one_block; [exact Hdata2 | nia | nia].
Qed.

(** ** Inferred dimensions fit the file *)

Lemma known_dims_positive :
  Forall (fun it => 0 < fst (fst it) /\ 0 < snd (fst it)) Map2TXT.KNOWN_BLOCK_DIMS.
Proof. repeat constructor. Qed.

Lemma autodetect_fits file_size :
  0 <= file_size < 196 * 2 ^ 52 -> file_size mod 196 = 0 ->
  exists across down label,
    Map2TXT.autodetect_block_dims file_size = Ok (across, down, label, file_size / 196)
    /\ 0 <= across /\ 0 <= down
    /\ across * down <= file_size / 196
    /\ (0 < file_size -> 0 < across /\ 0 < down)
    /\ (label = "Heuristic"%string ->
        across = Z.sqrt (file_size / 196) /\ down = Z.sqrt (file_size / 196)).
Proof.
  intros Hsize Hmod.
  destruct (autodetect_block_dims_below_2_52 file_size Hsize) as (_ & Hal).
  specialize (Hal Hmod).
  assert (0 <= file_size / 196) as Htot by (apply Z.div_pos; lia).
  pose proof (lookup_dims_first Map2TXT.KNOWN_BLOCK_DIMS (file_size / 196)) as Hfirst.
  destruct (Map2TXT.lookup_dims _ _) as [r|].
  - destruct Hfirst as (pre & ax & ay & label & post & Htab & _ & Hprod & ->).
    assert (0 < ax /\ 0 < ay) as [Hax Hay].
    { pose proof known_dims_positive as Hpos. rewrite Forall_forall in Hpos.
      apply (Hpos ((ax, ay), label)). rewrite Htab. apply elem_of_app. right. now left. }
    exists ax, ay, label. split; [exact Hal|].
    split; [lia|]. split; [lia|]. split; [lia|]. split; [auto|].
    intros ->. exfalso.
    pose proof heuristic_label_fresh as Hfresh. rewrite Forall_forall in Hfresh.
    apply (Hfresh ((ax, ay), "Heuristic"%string)); [|reflexivity].
    rewrite Htab. apply elem_of_app. right. now left.
  - exists (Z.sqrt (file_size / 196)), (Z.sqrt (file_size / 196)), "Heuristic"%string.
    pose proof (Z.sqrt_nonneg (file_size / 196)).
    pose proof (Z.sqrt_spec (file_size / 196) Htot) as [Hlo _]. cbv zeta in Hlo.
    split; [exact Hal|]. split; [lia|]. split; [lia|]. split; [lia|]. split; [|auto].
    intros Hpos.
    assert (0 < Z.sqrt (file_size / 196)); [|lia].
    apply Z.sqrt_pos. pose proof (Z.div_mod file_size 196 ltac:(lia)). lia.
Qed.

(** For every aligned file below 196 * 2^52 bytes dimension inference
    succeeds, and the grid it answers never has more blocks than the file:
    exactly as many for a table match, the largest square that fits for the
    fallback. *)
Theorem autodetect_grid_fits_file file_size :
  0 <= file_size < 196 * 2 ^ 52 -> file_size mod 196 = 0 ->
  exists across down label,
    Map2TXT.autodetect_block_dims file_size = Ok (across, down, label, file_size / 196)
    /\ 0 <= across /\ 0 <= down
    /\ across * down <= file_size / 196
    /\ (label <> "Heuristic"%string -> across * down = file_size / 196)
    /\ (label = "Heuristic"%string ->
        across = down /\ across * across <= file_size / 196 < (across + 1) * (across + 1)).
Proof.
  intros Hsize Hmod.
  destruct (autodetect_fits file_size Hsize Hmod)
    as (across & down & label & Hrun & Ha & Hd & Hfit & _ & Hheur).
  exists across, down, label. split; [exact Hrun|].
  split; [exact Ha|]. split; [exact Hd|]. split; [exact Hfit|]. split.
  - intros Hlabel.
    destruct (autodetect_block_dims_cases file_size) as (_ & Hcases).
    destruct (Hcases _ _ _ _ Hrun) as (_ & [(_ & pre & post & _ & _ & Hprod)|(Hl & _)]);
      [exact Hprod | contradiction].
  - intros Hlabel. destruct (Hheur Hlabel) as [-> ->].
    split; [reflexivity|].
    pose proof (Z.sqrt_spec (file_size / 196) ltac:(apply Z.div_pos; lia)) as Hs.
    cbv zeta in Hs. unfold Z.succ in Hs. exact Hs.
Qed.

Lemma autodetect_grid_fits_file_witness :
  exists across down label,
    Map2TXT.autodetect_block_dims (196 * 17) = Ok (across, down, label, 196 * 17 / 196)
    /\ across * down <= 196 * 17 / 196.
Proof.
  destruct (autodetect_grid_fits_file (196 * 17))
    as (across & down & label & Hrun & _ & _ & Hfit & _).
  - lia.
  - reflexivity.
  - exists across, down, label. split; [exact Hrun | exact Hfit].
Defined.

(** ** Runs of Map2TXT's [main] *)

Lemma main_some input out_path all_blocks s data across down label :
  s !! input = Some data ->
  Map2TXT.autodetect_block_dims (len data) = Ok (across, down, label, len data / 196) ->
  Map2TXT.main input out_path all_blocks s
  = (let '(r, st) :=
       Map2TXT.dump_blocks all_blocks across down
         ({| rdata := if decide (out_path = input) then [] else data; rpos := 0 |},
          EmptyString) in
     (r, <[out_path := String.list_byte_of_string (snd st)]> s)).
Proof. intros Hin Hdims. unfold Map2TXT.main. rewrite Hin. cbv zeta. now rewrite Hdims. Qed.

(** The full sweep of an aligned file below 196 * 2^52 bytes, written to
    another path, succeeds: no block of the inferred grid is truncated, and
    the output is the text of the blocks in sweep order. *)
Theorem map2txt_full_sweep input out_path s data :
  s !! input = Some data -> out_path <> input ->
  len data mod 196 = 0 -> len data < 196 * 2 ^ 52 ->
  exists across down label,
    Map2TXT.autodetect_block_dims (len data) = Ok (across, down, label, len data / 196)
    /\ Map2TXT.main input out_path true s
       = (Ok tt,
          <[out_path := String.list_byte_of_string (sweep_text data across down)]> s).
Proof.
  intros Hin Hne Hmod Hsize.
  destruct (autodetect_fits (len data)) as (across & down & label & Hrun & Ha & Hd & Hfit & _);
    [unfold len in *; lia | exact Hmod |].
  exists across, down, label. split; [exact Hrun|].
  rewrite (main_some _ _ _ _ _ _ _ _ Hin Hrun). rewrite decide_False by exact Hne.
  destruct (dump_blocks_sweep data across down
              ({| rdata := data; rpos := 0 |}, EmptyString) eq_refl Ha Hd)
    as (f' & Hsweep & _).
  { pose proof (Z.div_mod (len data) 196 ltac:(lia)). nia. }
  rewrite Hsweep. reflexivity.
Qed.

Lemma map2txt_full_sweep_witness :
  exists across down label,
    Map2TXT.autodetect_block_dims 196 = Ok (across, down, label, 196 / 196)
    /\ Map2TXT.main "map0.mul" "map0.txt" true {[ "map0.mul"%string := uniform_block 2 (-1) ]}
       = (Ok tt,
          <["map0.txt"%string
            := String.list_byte_of_string (sweep_text (uniform_block 2 (-1)) across down)]>
            {[ "map0.mul"%string := uniform_block 2 (-1) ]}).
Proof.
  apply (map2txt_full_sweep "map0.mul" "map0.txt"
           {[ "map0.mul"%string := uniform_block 2 (-1) ]} (uniform_block 2 (-1))).
  - apply lookup_singleton_eq.
  - discriminate.
  - reflexivity.
  - reflexivity.
Defined.

(** [main] gives up before it opens the output when the input is missing
    or its size is not a multiple of 196: no file is created or changed. *)
Theorem map2txt_rejects_before_writing input out_path all_blocks s :
  (s !! input = None ->
     Map2TXT.main input out_path all_blocks s = (Raise (FileNotFoundError input), s))
  /\ (forall data,
        s !! input = Some data -> len data mod 196 <> 0 ->
        exists e,
          Map2TXT.main input out_path all_blocks s = (Raise e, s)
          /\ MisalignedFileSize e).
Proof.
  split.
  - intros Hin. unfold Map2TXT.main. now rewrite Hin.
  - intros data Hin Hmod. eexists. split.
    + unfold Map2TXT.main. rewrite Hin. cbv zeta.
      now rewrite autodetect_misaligned by exact Hmod.
    + now eexists.
Qed.

Lemma map2txt_rejects_before_writing_witness :
  Map2TXT.main "map0.mul" "map0.txt" true ∅ = (Raise (FileNotFoundError "map0.mul"), ∅)
  /\ exists e,
       Map2TXT.main "map0.mul" "map0.txt" true {[ "map0.mul"%string := [x00] ]}
       = (Raise e, {[ "map0.mul"%string := [x00] ]})
       /\ MisalignedFileSize e.
Proof.
  split.
  - apply (map2txt_rejects_before_writing "map0.mul" "map0.txt" true ∅). apply lookup_empty.
  - apply (map2txt_rejects_before_writing "map0.mul" "map0.txt" true
             {[ "map0.mul"%string := [x00] ]}) with (data := [x00]).
    + apply lookup_singleton_eq.
    + discriminate.
Defined.

Lemma block_at_first data : block_at data 0 = decode_rows 8 (drop 4 data).
Proof. reflexivity. Qed.

Lemma map2txt_default_mode_aux input out_path s data :
  s !! input = Some data -> out_path <> input ->
  len data mod 196 = 0 -> len data < 196 * 2 ^ 52 -> data <> [] ->
  Map2TXT.main input out_path false s
  = (Ok tt,
     <[out_path := String.list_byte_of_string (dump_text (block_at data 0) 0 0)]> s).
Proof.
  intros Hin Hne Hmod Hsize Hdata.
  destruct (autodetect_fits (len data)) as (across & down & label & Hrun & _);
    [unfold len in *; lia | exact Hmod |].
  rewrite (main_some _ _ _ _ _ _ _ _ Hin Hrun). rewrite decide_False by exact Hne.
  unfold Map2TXT.dump_blocks.
  destruct (dump_one_block data 0 0 down ({| rdata := data; rpos := 0 |}, EmptyString)
              eq_refl) as (f' & Hdump & _).
  - lia.
  - assert (0 < len data) by (unfold len; destruct data; [contradiction | cbn; lia]).
    pose proof (Z.div_mod (len data) 196 ltac:(lia)). lia.
  - rewrite Hdump. cbn [snd]. replace (0 * down + 0) with 0 by lia. reflexivity.
Qed.

(** The default mode on an aligned file below 196 * 2^52 bytes, written
    to another path: an empty file makes [main] fail with TruncatedBlock
    after the output was created empty; any other file gives the text of
    its first block. *)
Theorem map2txt_default_mode input out_path s data :
  s !! input = Some data -> out_path <> input ->
  len data mod 196 = 0 -> len data < 196 * 2 ^ 52 ->
  (data = [] ->
     Map2TXT.main input out_path false s
     = (Raise (SystemExit "Unexpected EOF in block header."), <[out_path := []]> s))
  /\ (data <> [] ->
      Map2TXT.main input out_path false s
      = (Ok tt,
         <[out_path := String.list_byte_of_string (dump_text (block_at data 0) 0 0)]> s)).
Proof.
  intros Hin Hne Hmod Hsize. split.
  - intros ->.
    rewrite (main_some _ _ _ _ _ 0 0 "Heuristic"%string Hin) by reflexivity.
    rewrite decide_False by exact Hne. reflexivity.
  - intros Hdata. now apply map2txt_default_mode_aux.
Qed.

Lemma map2txt_default_mode_witness :
  Map2TXT.main "map0.mul" "map0.txt" false {[ "map0.mul"%string := [] ]}
  = (Raise (SystemExit "Unexpected EOF in block header."),
     <["map0.txt"%string := []]> {[ "map0.mul"%string := [] ]}).
Proof.
  apply (map2txt_default_mode "map0.mul" "map0.txt" {[ "map0.mul"%string := [] ]} []).
  - apply lookup_singleton_eq.
  - discriminate.
  - reflexivity.
  - reflexivity.
  - reflexivity.
Defined.

Lemma py_range_pos n : 0 < n -> exists rest, py_range n = 0 :: rest.
Proof.
  intros Hn. unfold py_range. replace (Z.to_nat n) with (S (Z.to_nat n - 1)) by lia.
  cbn [seq map]. eauto.
Qed.

Lemma read_block_empty bx by_ blocks_down pos :
  0 <= Map2TXT.block_offset bx by_ blocks_down <= OFF_T_MAX ->
  exists f',
    Map2TXT.read_block bx by_ blocks_down {| rdata := []; rpos := pos |}
    = (Raise (SystemExit "Unexpected EOF in block header."), f')
    /\ rdata f' = [].
Proof.
  intros [Hoff Hmax].
  destruct (read_block_outcome bx by_ blocks_down {| rdata := []; rpos := pos |} Hoff
              (or_introl Hmax))
    as (_ & Hhead & _).
  destruct Hhead as (f' & Hrun); [cbn [rdata]; rewrite drop_nil; cbn; lia|].
  exists f'. split; [exact Hrun|]. apply (keeps_data_read_block _ _ _ _ _ _ Hrun).
Qed.

(** Given the input path as output path, [main] loses the input: the
    output is opened, and so truncated, before the first block is read, so
    for every non-empty aligned file below 196 * 2^52 bytes both modes fail
    with TruncatedBlock and leave the file empty. *)
Theorem map2txt_same_path_loses_input input all_blocks s data :
  s !! input = Some data -> data <> [] ->
  len data mod 196 = 0 -> len data < 196 * 2 ^ 52 ->
  Map2TXT.main input input all_blocks s
  = (Raise (SystemExit "Unexpected EOF in block header."), <[input := []]> s).
Proof.
  intros Hin Hdata Hmod Hsize.
  assert (0 < len data) as Hpos by (unfold len; destruct data; [contradiction | cbn; lia]).
  destruct (autodetect_fits (len data))
    as (across & down & label & Hrun & _ & _ & _ & Hdims & _);
    [unfold len in *; lia | exact Hmod |].
  destruct (Hdims Hpos) as [Ha Hd].
  rewrite (main_some _ _ _ _ _ _ _ _ Hin Hrun). rewrite decide_True by reflexivity.
  assert (forall bx by_ k,
            0 <= Map2TXT.block_offset bx by_ down <= OFF_T_MAX ->
            exists f',
              (hc <- on_file (Map2TXT.read_block bx by_ down) ;;
               txt <- lift (Map2TXT.dump_block_pretty (snd hc) bx by_) ;;
               out_write txt) ({| rdata := []; rpos := k |}, EmptyString)
              = (Raise (SystemExit "Unexpected EOF in block header."), (f', EmptyString)))
    as Hstep.
  { intros bx by_ k Hoff. destruct (read_block_empty bx by_ down k Hoff) as (f' & Hr & _).
    exists f'. unfold bind at 1, on_file. cbn [fst snd]. now rewrite Hr. }
  destruct (Hstep 0 0 0%nat) as (f' & Hfirst).
  { unfold Map2TXT.block_offset, OFF_T_MAX. change Map2TXT.BLOCK_SIZE_BYTES with 196. lia. }
  unfold Map2TXT.dump_blocks. destruct all_blocks.
  - destruct (py_range_pos across Ha) as (ra & ->).
    destruct (py_range_pos down Hd) as (rd & ->).
    cbn [for_in]. unfold bind at 1. unfold bind at 1. rewrite Hfirst. reflexivity.
  - rewrite Hfirst. reflexivity.
Qed.

Lemma map2txt_same_path_loses_input_witness :
  Map2TXT.main "map0.mul" "map0.mul" true {[ "map0.mul"%string := uniform_block 2 (-1) ]}
  = (Raise (SystemExit "Unexpected EOF in block header."),
     <["map0.mul"%string := []]> {[ "map0.mul"%string := uniform_block 2 (-1) ]}).
Proof.
  apply (map2txt_same_path_loses_input "map0.mul" true
           {[ "map0.mul"%string := uniform_block 2 (-1) ]} (uniform_block 2 (-1))).
  - apply lookup_singleton_eq.
  - discriminate.
  - reflexivity.
  - reflexivity.
Defined.

(** A map written with defaults (T, A) and dumped in the default mode
    gives the title of block (0,0) and 8 equal lines of 8 equal cells. *)
Theorem map_write_then_dump_text
    out_dir force facet width height tile alt out_path s :
  valid_dimension width -> valid_dimension height -> valid_facet facet ->
  valid_tile tile -> valid_altitude alt ->
  force = true
  \/ (s !! map_path out_dir facet = None /\ s !! staidx_path out_dir facet = None
      /\ s !! statics_path out_dir facet = None) ->
  width / 8 * (height / 8) < 2 ^ 52 ->
  out_path <> map_path out_dir facet ->
  exists s',
    AxonometricLab.make_map_and_statics out_dir force facet width height tile alt s
    = (Ok tt, s')
    /\ Map2TXT.main (map_path out_dir facet) out_path false s'
       = (Ok tt,
          <[out_path
            := String.list_byte_of_string
                 (String.concat newline
                    (block_title 0 0 :: replicate 8 (row_text (replicate 8 (tile, alt))))
                  +:+ newline +:+ newline)]> s').
Proof.
  intros Hw Hh Hf Ht Ha Hfree Hsmall Hne.
  destruct (make_map_and_statics_succeeds out_dir force facet width height tile alt s
              Hw Hh Hf Ht Ha Hfree) as (s' & Hrun).
  destruct (make_map_and_statics_written _ _ _ _ _ _ _ _ _ _ Hw Hh Hf Ht Ha Hrun)
    as (Hmap & _).
  exists s'. split; [exact Hrun|].
  assert (0 < width / 8 * (height / 8)) as Hn.
  { destruct Hw as [? Hw8], Hh as [? Hh8].
    pose proof (Z.div_mod width 8 ltac:(lia)).
    pose proof (Z.div_mod height 8 ltac:(lia)). nia. }
  set (n := width / 8 * (height / 8)) in *.
  set (data := bytes_mul (uniform_block tile alt) n) in *.
  assert (len data = n * 196) as Hlen
    by (subst data; rewrite len_bytes_mul, len_uniform_block by lia; reflexivity).
  rewrite (map2txt_default_mode_aux (map_path out_dir facet) out_path s' data Hmap Hne).
  - do 3 f_equal.
    destruct (drop_to_block (uniform_block tile alt) 0 n ltac:(lia)) as (rest & Hdrop).
    change (Z.to_nat (0 * len (uniform_block tile alt))) with 0%nat in Hdrop.
    rewrite drop_0 in Hdrop. fold data in Hdrop.
    unfold dump_text. rewrite block_at_first, Hdrop.
    unfold valid_tile, valid_altitude in *.
    destruct (uniform_block_read tile alt rest) as (_ & ->); [lia | lia |].
    rewrite dump_block_pretty_text_aux by (rewrite length_replicate; lia).
    reflexivity.
  - rewrite Hlen. apply Z.mod_mul. lia.
  - rewrite Hlen. change (2 ^ 52) with 4503599627370496 in *. lia.
  - intros Hnil. assert (len data = 0) as Hzero by (rewrite Hnil; reflexivity). lia.
Qed.

Lemma map_write_then_dump_text_witness :
  exists s',
    AxonometricLab.make_map_and_statics "out" false 0 8 8 2 (-1) ∅ = (Ok tt, s')
    /\ Map2TXT.main (map_path "out" 0) "dump.txt" false s'
       = (Ok tt,
          <["dump.txt"%string
            := String.list_byte_of_string
                 (String.concat newline
                    (block_title 0 0 :: replicate 8 (row_text (replicate 8 (2, -1))))
                  +:+ newline +:+ newline)]> s').
Proof.
  apply (map_write_then_dump_text "out" false 0 8 8 2 (-1) "dump.txt" ∅).
  - split; [lia | reflexivity].
  - split; [lia | reflexivity].
  - unfold valid_facet. lia.
  - unfold valid_tile. lia.
  - unfold valid_altitude. lia.
  - right. rewrite !lookup_empty. auto.
  - reflexivity.
  - discriminate.
Defined.

(** ** Square maps *)

(** A square map of b x b blocks, b below 2^26, is recognised as b x b
    unless b = 240: 240 * 240 = 288 * 200, and the table entry wins. *)
Theorem autodetect_square_map b :
  0 <= b < 2 ^ 26 ->
  (b <> 240 ->
     exists label, Map2TXT.autodetect_block_dims (196 * (b * b)) = Ok (b, b, label, b * b))
  /\ (b = 240 ->
      Map2TXT.autodetect_block_dims (196 * (b * b))
      = Ok (288, 200, "Medium rectangular (map2-like)"%string, 57600)).
Proof.
  intros Hb. split; [|intros ->; reflexivity].
  intros H240.
  assert (0 <= b * b < 2 ^ 52) as Hbb.
  { change (2 ^ 52) with (2 ^ 26 * 2 ^ 26). change (2 ^ 26) with 67108864 in *. nia. }
  destruct (autodetect_block_dims_below_2_52 (196 * (b * b))) as (_ & Hal); [lia|].
  rewrite Hal by (rewrite (Z.mul_comm 196); apply Z.mod_mul; lia). clear Hal.
  replace (196 * (b * b) / 196) with (b * b)
    by (rewrite (Z.mul_comm 196), Z.div_mul; lia).
  unfold Map2TXT.KNOWN_BLOCK_DIMS, Map2TXT.lookup_dims.
  change (768 * 512) with 393216. change (896 * 512) with 458752.
  change (288 * 200) with 57600. change (256 * 256) with 65536.
  change (181 * 181) with 32761. change (512 * 512) with 262144.
  destruct (Z.eqb_spec 393216 (b * b)) as [E|_];
    [exfalso; destruct (Z.le_gt_cases b 627); nia|].
  destruct (Z.eqb_spec 458752 (b * b)) as [E|_];
    [exfalso; destruct (Z.le_gt_cases b 677); nia|].
  destruct (Z.eqb_spec 57600 (b * b)) as [E|_];
    [exfalso; apply H240; nia|].
  destruct (Z.eqb_spec 65536 (b * b)) as [E|_].
  { assert (b = 256) as -> by nia. eexists. reflexivity. }
  destruct (Z.eqb_spec 32761 (b * b)) as [E|_].
  { assert (b = 181) as -> by nia. eexists. reflexivity. }
  destruct (Z.eqb_spec 262144 (b * b)) as [E|_].
  { assert (b = 512) as -> by nia. eexists. reflexivity. }
  rewrite Z.sqrt_square by lia. eexists. reflexivity.
Qed.

Lemma autodetect_square_map_witness :
  exists label, Map2TXT.autodetect_block_dims (196 * (32 * 32)) = Ok (32, 32, label, 32 * 32).
Proof.
  apply (autodetect_square_map 32); [|discriminate].
  change (2 ^ 26) with 67108864. lia.
Defined.

(** ** Block addresses *)

(** Two different blocks of a column layout are at least one block
    apart: no two blocks overlap. *)
Theorem block_offsets_do_not_overlap bx by_ bx' by' blocks_down :
  0 <= by_ < blocks_down -> 0 <= by' < blocks_down ->
  (bx, by_) <> (bx', by') ->
  Map2TXT.block_offset bx by_ blocks_down + 196 <= Map2TXT.block_offset bx' by' blocks_down
  \/ Map2TXT.block_offset bx' by' blocks_down + 196 <= Map2TXT.block_offset bx by_ blocks_down.
Proof.
  intros Hy Hy' Hne.
  destruct (Z.eq_dec (Map2TXT.block_offset bx by_ blocks_down)
              (Map2TXT.block_offset bx' by' blocks_down)) as [E|E].
  - destruct (block_offset_injective _ _ _ _ _ Hy Hy' E) as [-> ->]. contradiction.
  - unfold Map2TXT.block_offset in *. change Map2TXT.BLOCK_SIZE_BYTES with 196 in *. lia.
Qed.

Lemma block_offsets_do_not_overlap_witness :
  Map2TXT.block_offset 0 1 2 + 196 <= Map2TXT.block_offset 1 0 2
  \/ Map2TXT.block_offset 1 0 2 + 196 <= Map2TXT.block_offset 0 1 2.
Proof.
  apply (block_offsets_do_not_overlap 0 1 1 0 2); [lia | lia | discriminate].
Defined.







